(** * Head-loss calculator (losses_calculator): correlations, segment and
      series head loss, elbow composition; with the mesh recommender
      (salome_mesh_generator) and the theoretical model of the
      post-processing script.

    The Python code computes on binary64 floats.  This development reads
    every float as the real number it stands for: [+], [-], [*] are the
    exact operations, [math.pi] is [PI], and the operations of Python
    that can raise ([/], [**], [math.log10]) return a [result] with the
    exception Python raises.  Rounding, overflow and underflow are outside
    this reading, so the statements proved on it are chosen to survive
    rounding: guards, order, the code's own expressions, inequalities
    that are not strict where a product can underflow, and strict ones
    only with a margin.

    Where the exact reading and the floats part, module [binary64] runs
    the single-segment computation on Rocq's primitive floats, which are
    IEEE 754 binary64 with rounding to nearest as Python's are. *)

From Stdlib Require Import Reals Lra Lia ZArith String List.
From Stdlib Require Floats.
Import ListNotations.

Open Scope R_scope.
Open Scope string_scope.

(** ** Exceptions and results *)

(** The exceptions the modelled code can raise. *)
Inductive exn : Type :=
| ValueError (msg : string)
| ZeroDivisionError
| TypeError
| OverflowError.

Inductive result (A : Type) : Type :=
| Ok (a : A)
| Raise (e : exn).

Arguments Ok {A} a.
Arguments Raise {A} e.

Definition bind {A B : Type} (m : result A) (k : A -> result B) : result B :=
  match m with
  | Ok a => k a
  | Raise e => Raise e
  end.

Notation "x <- m ;; k" := (bind m (fun x => k))
  (at level 61, m at next level, right associativity).

(** ** Python float operations, read on the reals *)

(** [x / y]: raises ZeroDivisionError when [y] is zero. *)
Definition float_div (x y : R) : result R :=
  if Req_dec_T y 0 then Raise ZeroDivisionError else Ok (x / y).

(** [x ** y] with a float exponent [y].  A positive base gives
    [exp (y * ln x)]; base zero gives 0, 1 or ZeroDivisionError by the sign
    of [y]; a negative base (only reached with the non-integer exponents
    1.11 and -0.25) gives a Python complex number, on which the comparison
    that follows in the source raises TypeError. *)
Definition float_pow (x y : R) : result R :=
  if Rlt_dec 0 x then Ok (Rpower x y)
  else if Req_dec_T x 0 then
    (if Rlt_dec 0 y then Ok 0
     else if Req_dec_T y 0 then Ok 1
     else Raise ZeroDivisionError)
  else Raise TypeError.

(** [x ** 2]. *)
Definition sq (x : R) : R := x * x.

(** [math.log10 x]: raises ValueError outside the domain. *)
Definition log10 (x : R) : result R :=
  if Rle_dec x 0 then Raise (ValueError "math domain error")
  else Ok (ln x / ln 10).

(** [math.ceil x] as an integer: the least integer not below [x]. *)
Definition ceil (x : R) : Z := (1 - up (- x))%Z.

(** ** app/core/correlations.py *)

Module correlations.

Definition Re_msg : string :=
  "Re debe ser > 0 para calcular el factor de fricción.".

Definition friction_factor_laminar (Re : R) : result R :=
  if Rle_dec Re 0 then Raise (ValueError Re_msg)
  else float_div 64 Re.

Definition friction_factor_blasius (Re : R) : result R :=
  if Rle_dec Re 0 then Raise (ValueError Re_msg)
  else
    p <- float_pow Re (-0.25) ;;
    Ok (0.3164 * p).

(** The argument of the logarithm (the two assignments [eps_over_D] and
    [term] of [friction_factor_haaland]). *)
Definition haaland_term (Re diameter_m roughness_m : R) : result R :=
  eps_over_D <- (if Rlt_dec 0 diameter_m
                 then float_div roughness_m diameter_m
                 else Ok 0) ;;
  p <- float_pow (eps_over_D / 3.7) 1.11 ;;
  b <- float_div 6.9 Re ;;
  Ok (p + b).

Definition friction_factor_haaland (Re diameter_m roughness_m : R) : result R :=
  if Rle_dec Re 0 then Raise (ValueError Re_msg)
  else if Rle_dec diameter_m 0 then
    Raise (ValueError "El diámetro debe ser > 0.")
  else if Rlt_dec roughness_m 0 then
    Raise (ValueError "La rugosidad no puede ser negativa.")
  else
    term <- haaland_term Re diameter_m roughness_m ;;
    if Rle_dec term 0 then
      Raise (ValueError
        "El término dentro del logaritmo de Haaland debe ser positivo.")
    else
      l <- log10 term ;;
      let inv_sqrt_f := -1.8 * l in
      float_div 1 (sq inv_sqrt_f).

Definition classify_regime (Re : R) : string :=
  if Rlt_dec Re 2000 then "laminar"
  else if Rle_dec Re 4000 then "transicional"
  else "turbulento".

Definition friction_factor
    (Re diameter_m roughness_m : R) (method : string) : result R :=
  if Rle_dec Re 0 then Raise (ValueError Re_msg)
  else if Rlt_dec Re 2000 then friction_factor_laminar Re
  else if Rgt_dec Re 4000 then
    (if String.eqb method "blasius" then friction_factor_blasius Re
     else if String.eqb method "haaland" then
       friction_factor_haaland Re diameter_m roughness_m
     else Raise (ValueError
            ("Método de correlación no reconocido: " ++ method)))
  else
    f_lam <- friction_factor_laminar Re ;;
    f_turb_4000 <- (if String.eqb method "blasius"
                    then friction_factor_blasius 4000
                    else friction_factor_haaland 4000 diameter_m roughness_m) ;;
    let w := (Re - 2000) / 2000 in
    Ok ((1 - w) * f_lam + w * f_turb_4000).

End correlations.

(** ** app/geometry/pipe_geometries.py *)

Module pipe_geometries.

Record PipeSegment : Type := mkPipeSegment {
  length_m : R;
  diameter_m : R;
  roughness_m : R;
  name : string
}.

(** Construction of the dataclass, with the checks of [__post_init__]. *)
Definition new (length_m diameter_m roughness_m : R) (name : string)
    : result PipeSegment :=
  if Rle_dec length_m 0 then
    Raise (ValueError "La longitud del tramo debe ser > 0.")
  else if Rle_dec diameter_m 0 then
    Raise (ValueError "El diámetro del tramo debe ser > 0.")
  else if Rlt_dec roughness_m 0 then
    Raise (ValueError "La rugosidad del tramo no puede ser negativa.")
  else Ok (mkPipeSegment length_m diameter_m roughness_m name).

End pipe_geometries.

(** ** app/core/local_losses.py *)

Module local_losses.

Record elbow : Type := mkElbow { K : R; label : string }.

Definition ELBOWS : list (string * elbow) :=
  [ ("elbow_90_SR", mkElbow 0.75 "Codo 90° SR (≈1D, estándar)");
    ("elbow_90_LR", mkElbow 0.25 "Codo 90° LR (≈1,5D, radio largo)");
    ("elbow_45_SR", mkElbow 0.35 "Codo 45° SR (≈1D, estándar)");
    ("elbow_45_LR", mkElbow 0.20 "Codo 45° LR (≈1,5D, radio largo)") ].

(** Dictionary subscript [d[code]]: [None] stands for KeyError. *)
Fixpoint getitem {V : Type} (d : list (string * V)) (code : string)
    : option V :=
  match d with
  | [] => None
  | (k, v) :: d' => if String.eqb k code then Some v else getitem d' code
  end.

Definition get_elbow_k (code : string) : result R :=
  match getitem ELBOWS code with
  | Some e => Ok (K e)
  | None => Raise (ValueError ("Tipo de codo desconocido: " ++ code))
  end.

Definition get_elbow_label (code : string) : result string :=
  match getitem ELBOWS code with
  | Some e => Ok (label e)
  | None => Raise (ValueError ("Tipo de codo desconocido: " ++ code))
  end.

End local_losses.

(** ** app/services/friction_service.py *)

Module friction_service.

Definition compute_area (diameter_m : R) : R :=
  PI * sq diameter_m / 4.

Definition compute_velocity (q_m3s area_m2 : R) : result R :=
  if Rle_dec area_m2 0 then Raise (ValueError "El área debe ser > 0.")
  else float_div q_m3s area_m2.

Definition compute_reynolds (velocity_ms diameter_m rho mu : R) : result R :=
  if Rle_dec mu 0 then Raise (ValueError "rho y mu deben ser > 0.")
  else if Rle_dec rho 0 then Raise (ValueError "rho y mu deben ser > 0.")
  else if Rle_dec diameter_m 0 then
    Raise (ValueError "El diámetro debe ser > 0.")
  else float_div (rho * velocity_ms * diameter_m) mu.

(** The dictionary returned for one segment. *)
Record SegmentResult : Type := mkSegmentResult {
  area_m2 : R;
  velocity_ms : R;
  reynolds : R;
  regime : string;
  friction_factor : R;
  hf_m : R;
  delta_p_pa : R;
  delta_p_bar : R
}.

Definition compute_single_segment_head_loss
    (q_m3s : R) (segment : pipe_geometries.PipeSegment)
    (rho mu g : R) (method : string) : result SegmentResult :=
  if Rle_dec q_m3s 0 then Raise (ValueError "El caudal debe ser > 0.")
  else if Rle_dec rho 0 then Raise (ValueError "rho y mu deben ser > 0.")
  else if Rle_dec mu 0 then Raise (ValueError "rho y mu deben ser > 0.")
  else if Rle_dec g 0 then Raise (ValueError "g debe ser > 0.")
  else
    let L := pipe_geometries.length_m segment in
    let D := pipe_geometries.diameter_m segment in
    let eps := pipe_geometries.roughness_m segment in
    let area_m2 := compute_area D in
    velocity_ms <- compute_velocity q_m3s area_m2 ;;
    reynolds <- compute_reynolds velocity_ms D rho mu ;;
    f <- correlations.friction_factor reynolds D eps method ;;
    let regime := correlations.classify_regime reynolds in
    head_velocity <- float_div (sq velocity_ms) (2 * g) ;;
    L_over_D <- float_div L D ;;
    let hf_m := f * L_over_D * head_velocity in
    let delta_p_pa := rho * g * hf_m in
    let delta_p_bar := delta_p_pa / 1.0e5 in
    Ok (mkSegmentResult area_m2 velocity_ms reynolds regime f
                        hf_m delta_p_pa delta_p_bar).

(** The per-segment dictionary of the series result: the segment's own
    fields followed by the keys of its [SegmentResult]. *)
Record SegInfo : Type := mkSegInfo {
  name : string;
  length_m : R;
  diameter_m : R;
  roughness_m : R;
  res : SegmentResult
}.

Record SeriesResult : Type := mkSeriesResult {
  segments_results : list SegInfo;
  hf_total_m : R;
  delta_p_total_pa : R;
  delta_p_total_bar : R
}.

(** The body of the [for seg in segments] loop, threading the two
    accumulators and the list being appended to. *)
Fixpoint series_loop
    (q_m3s : R) (segments : list pipe_geometries.PipeSegment)
    (rho mu g : R) (method : string)
    (total_hf total_dp_pa : R) (segments_results : list SegInfo)
    : result (R * R * list SegInfo) :=
  match segments with
  | [] => Ok (total_hf, total_dp_pa, segments_results)
  | seg :: rest =>
      r <- compute_single_segment_head_loss q_m3s seg rho mu g method ;;
      let total_hf := total_hf + hf_m r in
      let total_dp_pa := total_dp_pa + delta_p_pa r in
      let seg_info :=
        mkSegInfo (pipe_geometries.name seg)
                  (pipe_geometries.length_m seg)
                  (pipe_geometries.diameter_m seg)
                  (pipe_geometries.roughness_m seg) r in
      series_loop q_m3s rest rho mu g method total_hf total_dp_pa
                  (segments_results ++ [seg_info])
  end.

Definition compute_series_head_loss
    (q_m3s : R) (segments : list pipe_geometries.PipeSegment)
    (rho mu g : R) (method : string) : result SeriesResult :=
  match segments with
  | [] => Raise (ValueError "Debe proporcionar al menos un tramo de tubería.")
  | _ =>
      st <- series_loop q_m3s segments rho mu g method 0 0 [] ;;
      let '(total_hf, total_dp_pa, segments_results) := st in
      let delta_p_total_bar := total_dp_pa / 1.0e5 in
      Ok (mkSeriesResult segments_results total_hf total_dp_pa
                         delta_p_total_bar)
  end.

End friction_service.

(** ** app/cli/main_cli.py: the elbow case *)

Module main_cli.

(** What [_handle_pipe_with_elbow_case] computes and prints. *)
Record ElbowReport : Type := mkElbowReport {
  total_length : R;
  fric : friction_service.SegmentResult;
  hf_elbow : R;
  delta_p_elbow_pa : R;
  delta_p_elbow_bar : R;
  hf_total : R;
  delta_p_total_pa : R;
  delta_p_total_bar : R
}.

(** [_select_elbow_type] once the user has picked a valid entry [code]. *)
Definition _select_elbow_type (code : string)
    : result (string * R * string) :=
  K <- local_losses.get_elbow_k code ;;
  label <- local_losses.get_elbow_label code ;;
  Ok (code, K, label).

(** [_handle_pipe_with_elbow_case]: the answers typed by the user
    ([L1], [L2], the roughness and the elbow code) are arguments, the
    printed figures are the returned record. *)
Definition _handle_pipe_with_elbow_case
    (q_m3s ref_diameter_m : R) (method : string) (rho mu g : R)
    (L1 L2 roughness_m : R) (code : string) : result ElbowReport :=
  sel <- _select_elbow_type code ;;
  let '(code, K, label) := sel in
  let total_length := L1 + L2 in
  segment <- pipe_geometries.new total_length ref_diameter_m roughness_m
               ("Tubería con " ++ label) ;;
  fric <- friction_service.compute_single_segment_head_loss
            q_m3s segment rho mu g method ;;
  let v := friction_service.velocity_ms fric in
  head_velocity <- float_div (sq v) (2 * g) ;;
  let hf_elbow := K * head_velocity in
  let delta_p_elbow_pa := rho * g * hf_elbow in
  let delta_p_elbow_bar := delta_p_elbow_pa / 1.0e5 in
  let hf_total := friction_service.hf_m fric + hf_elbow in
  let delta_p_total_pa := friction_service.delta_p_pa fric + delta_p_elbow_pa in
  let delta_p_total_bar := delta_p_total_pa / 1.0e5 in
  Ok (mkElbowReport total_length fric hf_elbow delta_p_elbow_pa
                    delta_p_elbow_bar hf_total delta_p_total_pa
                    delta_p_total_bar).

End main_cli.

(** ** salome_mesh_generator/meshgen/config.py *)

Module meshgen_config.

Record LevelConfig : Type := mkLevelConfig {
  name : string;
  N_bulk : Z;
  N_theta : Z;
  N_arc_min : Z;
  N_in_max : Z;
  N_out_max : Z;
  growth_rate : R;
  viscous_total_thickness_factor : R;
  viscous_layers : Z;
  viscous_stretch : R;
  nb_segs_per_edge : Z;
  nb_segs_per_radius : Z;
  chordal_error_factor : R
}.

Record AlgorithmConfig : Type := mkAlgorithmConfig {
  main_3d_algorithm : string;
  alternative_3d_algorithm : string;
  alt_2d_algorithm : string;
  alt_1d_algorithm : string;
  limit_size_by_curvature : bool;
  quad_dominated : bool;
  second_order : bool;
  optimize : bool
}.

Definition LEVEL_CONFIGS : list (string * LevelConfig) :=
  [ ("coarse",
     mkLevelConfig "coarse" 6 32 20 150 150 0.40 0.03 8 1.25 1 4 0.30);
    ("medium",
     mkLevelConfig "medium" 10 48 36 250 250 0.35 0.05 10 1.20 2 6 0.20);
    ("fine",
     mkLevelConfig "fine" 15 64 48 400 400 0.30 0.07 14 1.15 3 8 0.15) ].

Definition ALGORITHM_CONFIG : AlgorithmConfig :=
  mkAlgorithmConfig "NETGEN 1D-2D-3D" "NETGEN 3D"
    "NETGEN 2D (simple parameters)" "Wire Discretization"
    false false false true.

Section GetLevelConfig.

(** [name.strip().lower()], left uninterpreted. *)
Variable strip_lower : string -> string.

(** [get_level_config] on a string. *)
Definition get_level_config (name : string) : result LevelConfig :=
  let key := strip_lower name in
  match local_losses.getitem LEVEL_CONFIGS key with
  | None =>
      let valid := String.concat ", " (map fst LEVEL_CONFIGS) in
      Raise (ValueError
               ("Nivel desconocido '" ++ name ++ "'. Usa uno de: " ++ valid))
  | Some c => Ok c
  end.

End GetLevelConfig.

Definition get_algorithm_config : AlgorithmConfig := ALGORITHM_CONFIG.

End meshgen_config.

(** ** salome_mesh_generator/meshgen/calculator.py *)

Module meshgen_calculator.

(** The field [R] of the source is [R_elbow] here, [R] being the type of
    the reals. *)
Record GeometryInput : Type := mkGeometryInput {
  D : R;
  L_in : R;
  L_out : R;
  R_elbow : R;
  theta_deg : R;
  level : string
}.

Record Netgen3DParams : Type := mkNetgen3DParams {
  max_size : R;
  min_size : R;
  growth_rate : R
}.

Record LocalSizeParams : Type := mkLocalSizeParams {
  s_bulk : R;
  s_elbow : R;
  s_theta : R;
  s_wall_elbow : R;
  s_wall_straight : R
}.

Record OneDParams : Type := mkOneDParams {
  N_in : Z;
  N_out : Z;
  N_arc : Z;
  N_in_raw : Z;
  N_out_raw : Z;
  N_arc_raw : Z
}.

Record ViscousLayerParams : Type := mkViscousLayerParams {
  total_thickness : R;
  number_of_layers : Z;
  stretch_factor : R
}.

Record NetgenArgumentsParams : Type := mkNetgenArgumentsParams {
  fineness : string;
  nb_segs_per_edge : Z;
  nb_segs_per_radius : Z;
  chordal_error : R;
  limit_size_by_curvature : bool;
  quad_dominated : bool;
  second_order : bool;
  optimize : bool;
  main_3d_algorithm : string;
  alternative_3d_algorithm : string;
  alternative_2d_algorithm : string;
  alternative_1d_algorithm : string
}.

Record MeshRecommendations : Type := mkMeshRecommendations {
  rec_level : string;
  geometry : GeometryInput;
  netgen_3d : Netgen3DParams;
  local_sizes : LocalSizeParams;
  segments_1d : OneDParams;
  viscous_layers : ViscousLayerParams;
  netgen_arguments : NetgenArgumentsParams;
  notes : list string
}.

Definition _validate_geometry (g : GeometryInput) : result unit :=
  if Rle_dec (D g) 0 then Raise (ValueError "El diámetro D debe ser > 0.")
  else if Rle_dec (R_elbow g) 0 then
    Raise (ValueError "El radio de codo R debe ser > 0.")
  else if Rle_dec (theta_deg g) 0 then
    Raise (ValueError "El ángulo del codo theta debe ser > 0.")
  else if Rlt_dec (L_in g) 0 then
    Raise (ValueError "Los largos L_in y L_out no pueden ser negativos.")
  else if Rlt_dec (L_out g) 0 then
    Raise (ValueError "Los largos L_in y L_out no pueden ser negativos.")
  else Ok tt.

Section Compute.

(** [name.strip().lower()] and the three number formats of the notes
    ([{n}] on an integer, [{x:.2f}] and [{x:.1f}] on a float), left
    uninterpreted. *)
Variable strip_lower : string -> string.
Variable fmt_d : Z -> string.
Variable fmt_2f : R -> string.
Variable fmt_1f : R -> string.

Definition compute_mesh_recommendations (geom : GeometryInput)
    : result MeshRecommendations :=
  _ <- _validate_geometry geom ;;
  cfg <- meshgen_config.get_level_config strip_lower (level geom) ;;
  let algo_cfg := meshgen_config.get_algorithm_config in
  let notes : list string := [] in
  r_over_d <- float_div (R_elbow geom) (D geom) ;;
  let N_bulk := meshgen_config.N_bulk cfg in
  let N_elbow := (2 * N_bulk)%Z in
  s_bulk <- float_div (D geom) (IZR N_bulk) ;;
  s_elbow <- float_div (D geom) (IZR N_elbow) ;;
  s_theta <- float_div (PI * D geom) (IZR (meshgen_config.N_theta cfg)) ;;
  let s_wall_elbow := Rmin s_elbow s_theta in
  let s_wall_straight := s_bulk in
  let max_size := s_bulk in
  let min_size := s_bulk / 3 in
  let growth_rate := meshgen_config.growth_rate cfg in
  let netgen_params := mkNetgen3DParams max_size min_size growth_rate in
  N_in_raw <- (if Rgt_dec (L_in geom) 0
               then x <- float_div (L_in geom) s_bulk ;; Ok (ceil x)
               else Ok 0%Z) ;;
  N_out_raw <- (if Rgt_dec (L_out geom) 0
                then x <- float_div (L_out geom) s_bulk ;; Ok (ceil x)
                else Ok 0%Z) ;;
  let N_in := if (0 <? N_in_raw)%Z
              then Z.min N_in_raw (meshgen_config.N_in_max cfg) else 0%Z in
  let N_out := if (0 <? N_out_raw)%Z
               then Z.min N_out_raw (meshgen_config.N_out_max cfg) else 0%Z in
  let notes :=
    if (meshgen_config.N_in_max cfg <? N_in_raw)%Z
    then (notes ++
          [("N_in calculado = " ++ fmt_d N_in_raw ++ " > N_in_max="
           ++ fmt_d (meshgen_config.N_in_max cfg) ++ ". "
           ++ "Se ha limitado a " ++ fmt_d (meshgen_config.N_in_max cfg)
           ++ ".")%string])%list
    else notes in
  let notes :=
    if (meshgen_config.N_out_max cfg <? N_out_raw)%Z
    then (notes ++
          [("N_out calculado = " ++ fmt_d N_out_raw ++ " > N_out_max="
           ++ fmt_d (meshgen_config.N_out_max cfg) ++ ". "
           ++ "Se ha limitado a " ++ fmt_d (meshgen_config.N_out_max cfg)
           ++ ".")%string])%list
    else notes in
  let L_arc := (theta_deg geom * (PI / 180)) * R_elbow geom in
  N_arc_raw <- (if Rgt_dec L_arc 0
                then x <- float_div L_arc s_elbow ;; Ok (ceil x)
                else Ok 0%Z) ;;
  let N_arc_min := meshgen_config.N_arc_min cfg in
  let tight :=
    if Rlt_dec r_over_d 1.2
    then (if Rge_dec (theta_deg geom) 45 then true else false)
    else false in
  let N_arc_min := if tight then ceil (1.5 * IZR N_arc_min) else N_arc_min in
  let notes :=
    if tight
    then (notes ++
          [("Codo con R/D=" ++ fmt_2f r_over_d ++ " < 1.2 y theta="
           ++ fmt_1f (theta_deg geom) ++ "°. "
           ++ "Mínimo de segmentos en arco aumentado a " ++ fmt_d N_arc_min
           ++ ".")%string])%list
    else notes in
  let N_arc := if (0 <? N_arc_raw)%Z then Z.max N_arc_raw N_arc_min
               else 0%Z in
  let segments := mkOneDParams N_in N_out N_arc N_in_raw N_out_raw N_arc_raw in
  let total_thickness :=
    meshgen_config.viscous_total_thickness_factor cfg * D geom in
  let viscous :=
    mkViscousLayerParams total_thickness
      (meshgen_config.viscous_layers cfg)
      (meshgen_config.viscous_stretch cfg) in
  let local :=
    mkLocalSizeParams s_bulk s_elbow s_theta s_wall_elbow s_wall_straight in
  let chordal_error := meshgen_config.chordal_error_factor cfg * s_wall_elbow in
  let netgen_args :=
    mkNetgenArgumentsParams "Custom"
      (meshgen_config.nb_segs_per_edge cfg)
      (meshgen_config.nb_segs_per_radius cfg)
      chordal_error
      (meshgen_config.limit_size_by_curvature algo_cfg)
      (meshgen_config.quad_dominated algo_cfg)
      (meshgen_config.second_order algo_cfg)
      (meshgen_config.optimize algo_cfg)
      (meshgen_config.main_3d_algorithm algo_cfg)
      (meshgen_config.alternative_3d_algorithm algo_cfg)
      (meshgen_config.alt_2d_algorithm algo_cfg)
      (meshgen_config.alt_1d_algorithm algo_cfg) in
  let notes :=
    (notes ++
     [("Recuerda: Nb. Segs per Edge y Nb. Segs per Radius solo influyen "
      ++ "si activas 'Limit Size by Surface Curvature' en la hipótesis NETGEN.")%string])%list in
  let notes :=
    (notes ++
     [("Revisa la calidad de malla en OpenFOAM (checkMesh): "
      ++ "nonOrthogonality, skewness, aspect ratio, etc.")%string])%list in
  Ok (mkMeshRecommendations (meshgen_config.name cfg) geom netgen_params
        local segments viscous netgen_args notes).

End Compute.

End meshgen_calculator.

(** ** cases/base/elbow20D45/post_pipe20m.py: the theoretical model *)

Module post_pipe20m.

Section Model.

(** [model.lower()], left uninterpreted. *)
Variable str_lower : string -> string.

(** The branch of [friction_factor] for model haaland. *)
Definition haaland_branch (Re eps_rel : R) : result R :=
  p <- float_pow (eps_rel / 3.7) 1.11 ;;
  b <- float_div 6.9 Re ;;
  l <- log10 (p + b) ;;
  let inv_sqrtf := -1.8 * l in
  float_div 1 (sq inv_sqrtf).

(** The chain of tests on [model] that follows the "auto" block. *)
Definition explicit_model (Re eps_rel : R) (model : string) : result R :=
  if String.eqb model "laminar" then float_div 64 Re
  else if String.eqb model "blasius" then
    p <- float_pow Re (-0.25) ;; Ok (0.3164 * p)
  else if String.eqb model "haaland" then haaland_branch Re eps_rel
  else Raise (ValueError ("Modelo de fricción no reconocido: " ++ model)).

Definition friction_factor (Re eps_rel : R) (model : string) : result R :=
  if Rle_dec Re 0 then Raise (ValueError "Re debe ser > 0")
  else
    let model := str_lower model in
    if String.eqb model "auto" then
      if Rlt_dec Re 2300 then float_div 64 Re
      else if Rle_dec Re 1e5 then
        (if Rle_dec eps_rel 1e-5 then
           p <- float_pow Re (-0.25) ;; Ok (0.3164 * p)
         else explicit_model Re eps_rel "haaland")
      else explicit_model Re eps_rel "haaland"
    else explicit_model Re eps_rel model.

End Model.

End post_pipe20m.

(** * The single-segment computation on binary64 floats

    The same functions of correlations.py, pipe_geometries.py and
    friction_service.py on primitive floats.  [+], [*] and the
    comparisons are the IEEE operations; [/] raises ZeroDivisionError on
    a zero divisor; [x ** 2] is the rounded square and raises
    OverflowError when a finite [x] squares to infinity.  Python's [**]
    with a float exponent and [math.log10] are calls to the C library,
    which primitive floats do not provide: they are parameters of the
    correlations that call them. *)

Module binary64.

Import PrimFloat.
#[local] Open Scope float_scope.
#[local] Set Warnings "-inexact-float".

(** [math.pi]. *)
Definition pi : float := 0x1.921fb54442d18p+1.

(** [x / y]. *)
Definition float_div (x y : float) : result float :=
  if y =? 0 then Raise ZeroDivisionError else Ok (x / y).

(** [x ** 2]. *)
Definition sq (x : float) : result float :=
  let y := x * x in
  if (is_infinity y && negb (is_infinity x))%bool then Raise OverflowError
  else Ok y.

Module correlations.

Section Libm.

(** [x ** y] with a float exponent, and [math.log10 x]. *)
Variable float_pow : float -> float -> result float.
Variable log10 : float -> result float.

Definition friction_factor_laminar (Re : float) : result float :=
  if Re <=? 0 then Raise (ValueError correlations.Re_msg)
  else float_div 64 Re.

Definition friction_factor_blasius (Re : float) : result float :=
  if Re <=? 0 then Raise (ValueError correlations.Re_msg)
  else
    p <- float_pow Re (-0.25) ;;
    Ok (0.3164 * p).

Definition friction_factor_haaland (Re diameter_m roughness_m : float)
    : result float :=
  if Re <=? 0 then Raise (ValueError correlations.Re_msg)
  else if diameter_m <=? 0 then
    Raise (ValueError "El diámetro debe ser > 0.")
  else if roughness_m <? 0 then
    Raise (ValueError "La rugosidad no puede ser negativa.")
  else
    eps_over_D <- (if 0 <? diameter_m
                   then float_div roughness_m diameter_m
                   else Ok 0) ;;
    p <- float_pow (eps_over_D / 3.7) 1.11 ;;
    b <- float_div 6.9 Re ;;
    let term := p + b in
    if term <=? 0 then
      Raise (ValueError
        "El término dentro del logaritmo de Haaland debe ser positivo.")
    else
      l <- log10 term ;;
      let inv_sqrt_f := -1.8 * l in
      s <- sq inv_sqrt_f ;;
      float_div 1 s.

Definition classify_regime (Re : float) : string :=
  if Re <? 2000 then "laminar"
  else if Re <=? 4000 then "transicional"
  else "turbulento".

Definition friction_factor
    (Re diameter_m roughness_m : float) (method : string) : result float :=
  if Re <=? 0 then Raise (ValueError correlations.Re_msg)
  else if Re <? 2000 then friction_factor_laminar Re
  else if 4000 <? Re then
    (if String.eqb method "blasius" then friction_factor_blasius Re
     else if String.eqb method "haaland" then
       friction_factor_haaland Re diameter_m roughness_m
     else Raise (ValueError
            ("Método de correlación no reconocido: " ++ method)))
  else
    f_lam <- friction_factor_laminar Re ;;
    f_turb_4000 <- (if String.eqb method "blasius"
                    then friction_factor_blasius 4000
                    else friction_factor_haaland 4000 diameter_m roughness_m) ;;
    let w := (Re - 2000) / 2000 in
    Ok ((1 - w) * f_lam + w * f_turb_4000).

End Libm.

End correlations.

Module pipe_geometries.

Record PipeSegment : Type := mkPipeSegment {
  length_m : float;
  diameter_m : float;
  roughness_m : float;
  name : string
}.

End pipe_geometries.

Module friction_service.

Definition compute_area (diameter_m : float) : result float :=
  d2 <- sq diameter_m ;;
  Ok (pi * d2 / 4).

Definition compute_velocity (q_m3s area_m2 : float) : result float :=
  if area_m2 <=? 0 then Raise (ValueError "El área debe ser > 0.")
  else float_div q_m3s area_m2.

Definition compute_reynolds (velocity_ms diameter_m rho mu : float)
    : result float :=
  if mu <=? 0 then Raise (ValueError "rho y mu deben ser > 0.")
  else if rho <=? 0 then Raise (ValueError "rho y mu deben ser > 0.")
  else if diameter_m <=? 0 then
    Raise (ValueError "El diámetro debe ser > 0.")
  else float_div (rho * velocity_ms * diameter_m) mu.

Record SegmentResult : Type := mkSegmentResult {
  area_m2 : float;
  velocity_ms : float;
  reynolds : float;
  regime : string;
  friction_factor : float;
  hf_m : float;
  delta_p_pa : float;
  delta_p_bar : float
}.

Section Libm.

Variable float_pow : float -> float -> result float.
Variable log10 : float -> result float.

Definition compute_single_segment_head_loss
    (q_m3s : float) (segment : pipe_geometries.PipeSegment)
    (rho mu g : float) (method : string) : result SegmentResult :=
  if q_m3s <=? 0 then Raise (ValueError "El caudal debe ser > 0.")
  else if rho <=? 0 then Raise (ValueError "rho y mu deben ser > 0.")
  else if mu <=? 0 then Raise (ValueError "rho y mu deben ser > 0.")
  else if g <=? 0 then Raise (ValueError "g debe ser > 0.")
  else
    let L := pipe_geometries.length_m segment in
    let D := pipe_geometries.diameter_m segment in
    let eps := pipe_geometries.roughness_m segment in
    area_m2 <- compute_area D ;;
    velocity_ms <- compute_velocity q_m3s area_m2 ;;
    reynolds <- compute_reynolds velocity_ms D rho mu ;;
    f <- correlations.friction_factor float_pow log10 reynolds D eps method ;;
    let regime := correlations.classify_regime reynolds in
    v2 <- sq velocity_ms ;;
    head_velocity <- float_div v2 (2 * g) ;;
    L_over_D <- float_div L D ;;
    let hf_m := f * L_over_D * head_velocity in
    let delta_p_pa := rho * g * hf_m in
    let delta_p_bar := delta_p_pa / 1.0e5 in
    Ok (mkSegmentResult area_m2 velocity_ms reynolds regime f
                        hf_m delta_p_pa delta_p_bar).

End Libm.

End friction_service.

End binary64.

(** * Vocabulary of the statements *)

(** A segment that passes the checks of [__post_init__]. *)
Definition valid_segment (s : pipe_geometries.PipeSegment) : Prop :=
  0 < pipe_geometries.length_m s /\
  0 < pipe_geometries.diameter_m s /\
  0 <= pipe_geometries.roughness_m s.

(** The correlation the turbulent branch ([Re > 4000]) of
    [friction_factor] selects for [method], as a function of [Re]. *)
Definition turbulent_correlation
    (method : string) (Re diameter_m roughness_m : R) : result R :=
  if String.eqb method "blasius" then correlations.friction_factor_blasius Re
  else if String.eqb method "haaland" then
    correlations.friction_factor_haaland Re diameter_m roughness_m
  else Raise (ValueError ("Método de correlación no reconocido: " ++ method)).

(** [mentions msg w]: the message contains the word [w]. *)
Definition mentions (msg w : string) : bool :=
  match String.index 0 w msg with
  | Some _ => true
  | None => false
  end.

(** Sum of a list of reals. *)
Definition sum_list (l : list R) : R := fold_right Rplus 0 l.

(** The sum as the loop of [compute_series_head_loss] accumulates it:
    from 0, adding the values from left to right. *)
Definition sum_left (l : list R) : R := fold_left Rplus l 0.

(** The roughness at which, for diameter 1 and [Re = 4000], Haaland's
    logarithm argument is exactly 1. *)
Definition eps_singular : R := 3.7 * Rpower (1 - 6.9 / 4000) (1 / 1.11).

(** The call returns a value. *)
Definition returns {A : Type} (c : result A) : Prop := exists a, c = Ok a.

(** [info] is the entry of the series result for [seg]: the segment's own
    fields and the result of the single-segment computation on it. *)
Definition entry_for (q rho mu g : R) (method : string)
    (seg : pipe_geometries.PipeSegment) (info : friction_service.SegInfo)
    : Prop :=
  friction_service.name info = pipe_geometries.name seg /\
  friction_service.length_m info = pipe_geometries.length_m seg /\
  friction_service.diameter_m info = pipe_geometries.diameter_m seg /\
  friction_service.roughness_m info = pipe_geometries.roughness_m seg /\
  friction_service.compute_single_segment_head_loss q seg rho mu g method
    = Ok (friction_service.res info).

(** A geometry that passes [_validate_geometry]. *)
Definition valid_geometry (g : meshgen_calculator.GeometryInput) : Prop :=
  0 < meshgen_calculator.D g /\
  0 < meshgen_calculator.R_elbow g /\
  0 < meshgen_calculator.theta_deg g /\
  0 <= meshgen_calculator.L_in g /\
  0 <= meshgen_calculator.L_out g.

(** * Properties *)

(** ** Tactics *)

(** Case analysis on the first comparison of the goal, closing the
    branches the context contradicts. *)
Ltac case_cmp :=
  match goal with
  | |- context [Rle_dec ?a ?b] => destruct (Rle_dec a b)
  | |- context [Rlt_dec ?a ?b] => destruct (Rlt_dec a b)
  | |- context [Rgt_dec ?a ?b] => destruct (Rgt_dec a b)
  | |- context [Req_dec_T ?a ?b] => destruct (Req_dec_T a b)
  end; try lra.

Ltac cases_cmp := repeat case_cmp.

(** ** Float operations *)

Lemma float_div_ok (x y : R) : y <> 0 -> float_div x y = Ok (x / y).
Proof. intros Hy. unfold float_div. case_cmp; easy. Qed.

Lemma float_div_zero (x : R) : float_div x 0 = Raise ZeroDivisionError.
Proof. unfold float_div. case_cmp; easy. Qed.

Lemma float_pow_pos (x y : R) : 0 < x -> float_pow x y = Ok (Rpower x y).
Proof. intros Hx. unfold float_pow. case_cmp; easy. Qed.

Lemma Rpower_pos (x y : R) : 0 < Rpower x y.
Proof. unfold Rpower. apply exp_pos. Qed.

(** A base in (0, 1] raised to an exponent of at least 1 does not grow. *)
Lemma Rpower_le_base (x y : R) : 0 < x <= 1 -> 1 <= y -> Rpower x y <= x.
Proof.
  intros [Hx0 Hx1] Hy.
  assert (Hln : ln x <= 0).
  { destruct Hx1 as [Hlt | Heq].
    - left. rewrite <- ln_1. apply ln_increasing; assumption.
    - rewrite Heq, ln_1. lra. }
  rewrite <- (exp_ln x Hx0) at 2. unfold Rpower.
  destruct (Req_dec (y * ln x) (ln x)) as [E | NE].
  - rewrite E. lra.
  - left. apply exp_increasing. nra.
Qed.

(** [x ** 1.11] on a non-negative base returns a non-negative number, no
    larger than the base when the base is at most 1. *)
Lemma float_pow_111 (x : R) :
  0 <= x ->
  exists p, float_pow x 1.11 = Ok p /\ 0 <= p /\ (x <= 1 -> p <= x).
Proof.
  intros Hx. unfold float_pow. case_cmp.
  - exists (Rpower x 1.11). split; [reflexivity | split].
    + left. apply Rpower_pos.
    + intros Hx1. apply Rpower_le_base; lra.
  - case_cmp. case_cmp. exists 0. repeat split; lra.
Qed.

Lemma ln_10_pos : 0 < ln 10.
Proof. rewrite <- ln_1. apply ln_increasing; lra. Qed.

Lemma log10_ok (x : R) : 0 < x -> log10 x = Ok (ln x / ln 10).
Proof. intros Hx. unfold log10. case_cmp; easy. Qed.

(** ** Correlations *)

Import correlations.

Lemma friction_factor_laminar_ok (Re : R) :
  0 < Re -> friction_factor_laminar Re = Ok (64 / Re).
Proof.
  intros HRe. unfold friction_factor_laminar. case_cmp.
  apply float_div_ok. lra.
Qed.

Lemma friction_factor_blasius_ok (Re : R) :
  0 < Re -> friction_factor_blasius Re = Ok (0.3164 * Rpower Re (-0.25)).
Proof.
  intros HRe. unfold friction_factor_blasius. case_cmp.
  rewrite float_pow_pos by assumption. reflexivity.
Qed.

(** On valid inputs the logarithm's argument is computed and is
    [p + 6.9/Re] for a non-negative power [p]. *)
Lemma haaland_term_ok (Re D eps : R) :
  0 < Re -> 0 < D -> 0 <= eps ->
  exists p,
    float_pow ((eps / D) / 3.7) 1.11 = Ok p /\ 0 <= p /\
    ((eps / D) / 3.7 <= 1 -> p <= (eps / D) / 3.7) /\
    haaland_term Re D eps = Ok (p + 6.9 / Re).
Proof.
  intros HRe HD Heps.
  assert (Hx : 0 <= (eps / D) / 3.7).
  { unfold Rdiv. apply Rle_mult_inv_pos; [apply Rle_mult_inv_pos |]; lra. }
  destruct (float_pow_111 _ Hx) as (p & Hp & Hp0 & Hp1).
  exists p. repeat split; try assumption.
  unfold haaland_term. case_cmp.
  rewrite float_div_ok by lra. cbn [bind].
  rewrite Hp. cbn [bind].
  rewrite float_div_ok by lra. reflexivity.
Qed.

(** The value Haaland's correlation returns away from [term = 1]. *)
Lemma friction_factor_haaland_ok (Re D eps t : R) :
  0 < Re -> 0 < D -> 0 <= eps ->
  haaland_term Re D eps = Ok t -> t <> 1 ->
  friction_factor_haaland Re D eps = Ok (1 / sq (-1.8 * (ln t / ln 10))) /\
  0 < 1 / sq (-1.8 * (ln t / ln 10)).
Proof.
  intros HRe HD Heps Ht Ht1.
  destruct (haaland_term_ok Re D eps HRe HD Heps) as (p & _ & Hp0 & _ & Hterm).
  rewrite Hterm in Ht. injection Ht as <-.
  assert (Hpos : 0 < p + 6.9 / Re).
  { assert (0 < 6.9 / Re) by (apply Rdiv_lt_0_compat; lra). lra. }
  assert (Hl : ln (p + 6.9 / Re) <> 0).
  { intros E. apply Ht1. rewrite <- ln_1 in E. apply ln_inv in E; lra. }
  pose proof ln_10_pos as H10.
  assert (Hq : ln (p + 6.9 / Re) / ln 10 <> 0).
  { unfold Rdiv. apply Rmult_integral_contrapositive_currified; [assumption |].
    apply Rinv_neq_0_compat. lra. }
  assert (Hs : 0 < sq (-1.8 * (ln (p + 6.9 / Re) / ln 10))).
  { unfold sq. nra. }
  split.
  - unfold friction_factor_haaland. cases_cmp.
    rewrite Hterm. cbn [bind]. case_cmp.
    rewrite log10_ok by assumption. cbn [bind].
    apply float_div_ok. lra.
  - apply Rdiv_lt_0_compat; lra.
Qed.

(** At [term = 1] the logarithm is zero and the final division raises. *)
Lemma friction_factor_haaland_singular (Re D eps : R) :
  0 < Re -> 0 < D -> 0 <= eps ->
  haaland_term Re D eps = Ok 1 ->
  friction_factor_haaland Re D eps = Raise ZeroDivisionError.
Proof.
  intros HRe HD Heps Ht.
  unfold friction_factor_haaland. cases_cmp.
  rewrite Ht. cbn [bind]. case_cmp.
  rewrite log10_ok by lra. cbn [bind].
  rewrite ln_1. replace (sq (-1.8 * (0 / ln 10))) with 0.
  - apply float_div_zero.
  - unfold sq, Rdiv. ring.
Qed.

(** Above 4000 [friction_factor] is the selected turbulent correlation. *)
Lemma friction_factor_turbulent (Re D eps : R) (m : string) :
  4000 < Re -> friction_factor Re D eps m = turbulent_correlation m Re D eps.
Proof.
  intros HRe. unfold friction_factor, turbulent_correlation.
  cases_cmp. reflexivity.
Qed.

(** ** Laminar regime *)

(** Below 2000 the dispatch takes the laminar branch. *)
Lemma friction_factor_below_2000 (Re D eps : R) (m : string) :
  0 < Re -> Re < 2000 -> friction_factor Re D eps m = friction_factor_laminar Re.
Proof. intros H0 H2. unfold friction_factor. cases_cmp. reflexivity. Qed.

(** C1: for [0 < Re < 2000], [friction_factor] returns exactly [64 / Re],
    whatever the diameter, the roughness and the method. *)
Theorem friction_factor_laminar_regime (Re D eps : R) (m : string) :
  0 < Re < 2000 -> friction_factor Re D eps m = Ok (64 / Re).
Proof.
  intros [H0 H2]. rewrite friction_factor_below_2000 by assumption.
  apply friction_factor_laminar_ok. assumption.
Qed.

Lemma friction_factor_laminar_regime_witness :
  friction_factor 1000 0.05 0 "blasius" = Ok (64 / 1000).
Proof. apply (friction_factor_laminar_regime 1000 0.05 0 "blasius"). lra. Defined.

(** ** The guard of Haaland's logarithm *)



(** ** Rejected inputs *)

(** C7: [compute_single_segment_head_loss] raises an invalid-input error
    whose message names an offending quantity whenever [q <= 0],
    [rho <= 0], [mu <= 0] or [g <= 0]; [compute_series_head_loss] raises an
    invalid-input error on the empty list; neither returns a result. *)
Theorem invalid_inputs_rejected
    (q rho mu g : R) (seg : pipe_geometries.PipeSegment) (m : string) :
  (q <= 0 \/ rho <= 0 \/ mu <= 0 \/ g <= 0 ->
   exists msg,
     friction_service.compute_single_segment_head_loss q seg rho mu g m
       = Raise (ValueError msg) /\
     (forall r,
        friction_service.compute_single_segment_head_loss q seg rho mu g m
          <> Ok r) /\
     ((q <= 0 /\ mentions msg "caudal" = true) \/
      (rho <= 0 /\ mentions msg "rho" = true) \/
      (mu <= 0 /\ mentions msg "mu" = true) \/
      (g <= 0 /\ mentions msg "g" = true))) /\
  (exists msg,
     friction_service.compute_series_head_loss q [] rho mu g m
       = Raise (ValueError msg) /\
     forall r,
       friction_service.compute_series_head_loss q [] rho mu g m <> Ok r).
Proof.
  split.
  - intros Hbad. unfold friction_service.compute_single_segment_head_loss.
    destruct (Rle_dec q 0) as [Hq | Hq].
    { eexists. split; [reflexivity | split; [discriminate |]].
      left. split; [assumption | reflexivity]. }
    destruct (Rle_dec rho 0) as [Hrho | Hrho].
    { eexists. split; [reflexivity | split; [discriminate |]].
      right; left. split; [assumption | reflexivity]. }
    destruct (Rle_dec mu 0) as [Hmu | Hmu].
    { eexists. split; [reflexivity | split; [discriminate |]].
      right; right; left. split; [assumption | reflexivity]. }
    destruct (Rle_dec g 0) as [Hg | Hg].
    { eexists. split; [reflexivity | split; [discriminate |]].
      right; right; right. split; [assumption | reflexivity]. }
    exfalso. lra.
  - eexists. split; [reflexivity | discriminate].
Qed.

Lemma invalid_inputs_rejected_witness :
  exists msg,
    friction_service.compute_single_segment_head_loss
      1 (pipe_geometries.mkPipeSegment 10 0.05 0 "") 998 1 (-9.81) "haaland"
      = Raise (ValueError msg) /\
    mentions msg "g" = true.
Proof.
  destruct (invalid_inputs_rejected
              1 998 1 (-9.81) (pipe_geometries.mkPipeSegment 10 0.05 0 "")
              "haaland") as [H _].
  destruct H as (msg & Hr & _ & Hm).
  - right; right; right. lra.
  - exists msg. split; [exact Hr |].
    destruct Hm as [[Hc _] | [[Hc _] | [[Hc _] | [_ Hm]]]];
      [exfalso; lra | exfalso; lra | exfalso; lra | exact Hm].
Defined.

(** ** One segment *)

Lemma compute_area_pos (D : R) : 0 < D -> 0 < friction_service.compute_area D.
Proof.
  intros HD. unfold friction_service.compute_area, sq.
  apply Rdiv_lt_0_compat; [| lra].
  apply Rmult_lt_0_compat; [apply PI_RGT_0 | nra].
Qed.

(** On valid inputs every guarded step of
    [compute_single_segment_head_loss] succeeds and only the friction
    factor can raise. *)
Lemma compute_single_valid
    (q rho mu g : R) (seg : pipe_geometries.PipeSegment) (m : string) :
  0 < q -> 0 < rho -> 0 < mu -> 0 < g -> valid_segment seg ->
  let L := pipe_geometries.length_m seg in
  let D := pipe_geometries.diameter_m seg in
  let eps := pipe_geometries.roughness_m seg in
  let area := friction_service.compute_area D in
  let v := q / area in
  let Re := rho * v * D / mu in
  0 < area /\ 0 < v /\ 0 < Re /\
  friction_service.compute_single_segment_head_loss q seg rho mu g m =
    (f <- friction_factor Re D eps m ;;
     Ok (friction_service.mkSegmentResult area v Re (classify_regime Re) f
           (f * (L / D) * (sq v / (2 * g)))
           (rho * g * (f * (L / D) * (sq v / (2 * g))))
           (rho * g * (f * (L / D) * (sq v / (2 * g))) / 1.0e5))).
Proof.
  intros Hq Hrho Hmu Hg (HL & HD & Heps) L D eps area v Re.
  assert (HD' : 0 < D) by exact HD.
  assert (Harea : 0 < area) by (apply compute_area_pos; assumption).
  assert (Hv : 0 < v) by (apply Rdiv_lt_0_compat; assumption).
  assert (HRe : 0 < Re).
  { apply Rdiv_lt_0_compat; [| assumption].
    apply Rmult_lt_0_compat; [apply Rmult_lt_0_compat |]; assumption. }
  repeat split; try assumption.
  unfold friction_service.compute_single_segment_head_loss.
  cases_cmp.
  fold L D eps area.
  unfold friction_service.compute_velocity.
  destruct (Rle_dec area 0); [lra |].
  rewrite float_div_ok by lra. cbn [bind]. fold v.
  unfold friction_service.compute_reynolds.
  destruct (Rle_dec mu 0); [lra |].
  destruct (Rle_dec rho 0); [lra |].
  destruct (Rle_dec D 0); [lra |].
  rewrite float_div_ok by lra. cbn [bind]. fold Re.
  destruct (friction_factor Re D eps m) as [f | e]; cbn [bind]; [| reflexivity].
  rewrite float_div_ok by lra. cbn [bind].
  rewrite float_div_ok by lra. cbn [bind].
  reflexivity.
Qed.






Section Underflow.

Import PrimFloat.
#[local] Open Scope float_scope.
#[local] Set Warnings "-inexact-float".

(** On this input the computation takes the laminar branch, so its
    outcome is the same whatever the two C-library functions are. *)
Lemma underflow_input_ignores_libm
    (float_pow : float -> float -> result float)
    (log10 : float -> result float) :
  binary64.friction_service.compute_single_segment_head_loss
    float_pow log10
    1e-200 (binary64.pipe_geometries.mkPipeSegment 1 1 0 "") 1 1 1 "haaland"
  = binary64.friction_service.compute_single_segment_head_loss
      (fun _ _ => Raise OverflowError) (fun _ => Raise OverflowError)
      1e-200 (binary64.pipe_geometries.mkPipeSegment 1 1 0 "") 1 1 1 "haaland".
Proof. vm_compute. reflexivity. Qed.


End Underflow.

(** ** Haaland's correlation at and away from its singular argument *)

Lemma eps_singular_pos : 0 < eps_singular.
Proof.
  unfold eps_singular.
  pose proof (Rpower_pos (1 - 6.9 / 4000) (1 / 1.11)). lra.
Qed.

Lemma haaland_term_eps_singular : haaland_term 4000 1 eps_singular = Ok 1.
Proof.
  unfold haaland_term. case_cmp.
  rewrite float_div_ok by lra. cbn [bind].
  replace (eps_singular / 1 / 3.7) with (Rpower (1 - 6.9 / 4000) (1 / 1.11))
    by (unfold eps_singular; lra).
  rewrite float_pow_pos by apply Rpower_pos. cbn [bind].
  rewrite float_div_ok by lra. cbn [bind].
  rewrite Rpower_mult.
  replace (1 / 1.11 * 1.11) with 1 by lra.
  rewrite Rpower_1 by lra.
  f_equal. lra.
Qed.

(** With diameter 1 and roughness [eps_singular] the transitional branch
    raises for every method other than blasius. *)
Lemma friction_factor_eps_singular (Re : R) (m : string) :
  2000 <= Re <= 4000 -> String.eqb m "blasius" = false ->
  friction_factor Re 1 eps_singular m = Raise ZeroDivisionError.
Proof.
  intros [H2 H4] Hm. unfold friction_factor. cases_cmp.
  rewrite friction_factor_laminar_ok by lra. cbn [bind].
  rewrite Hm.
  rewrite friction_factor_haaland_singular;
    [reflexivity | lra | lra | | apply haaland_term_eps_singular].
  left. apply eps_singular_pos.
Qed.

(** A roughness of at most 3.69 diameters keeps the logarithm's argument
    below 1 for every [Re >= 4000]. *)
Lemma haaland_term_below_1 (Re D eps : R) :
  4000 <= Re -> 0 < D -> 0 <= eps -> eps <= 3.69 * D ->
  exists t, haaland_term Re D eps = Ok t /\ 6.9 / Re <= t /\ t < 1.
Proof.
  intros HRe HD Heps Hrough.
  assert (HRe0 : 0 < Re) by lra.
  destruct (haaland_term_ok Re D eps HRe0 HD Heps) as (p & _ & Hp0 & Hp1 & Ht).
  exists (p + 6.9 / Re). split; [assumption |].
  assert (Hr : eps / D <= 3.69).
  { apply Rmult_le_reg_r with D; [assumption |].
    unfold Rdiv. rewrite Rmult_assoc, Rinv_l by lra. lra. }
  assert (Hb : 6.9 / Re <= 6.9 / 4000).
  { unfold Rdiv. apply Rmult_le_compat_l; [lra |].
    apply Rinv_le_contravar; lra. }
  assert (Hp : p <= eps / D / 3.7) by (apply Hp1; lra).
  split; lra.
Qed.



(** Blasius at [Re = 4000]: the fourth root of 4000 lies between 7 and 8. *)
Lemma blasius_4000_bounds :
  0.3164 / 8 < 0.3164 * Rpower 4000 (-0.25) < 0.3164 / 7.
Proof.
  set (y := Rpower 4000 0.25).
  assert (Hy : 0 < y) by apply Rpower_pos.
  assert (Hy4 : (y * y) * (y * y) = 4000).
  { replace (y * y * (y * y)) with (y ^ 4) by ring.
    rewrite <- Rpower_pow by assumption.
    unfold y. rewrite Rpower_mult.
    replace (0.25 * INR 4) with 1 by (simpl; lra).
    apply Rpower_1. lra. }
  assert (H7 : 7 < y).
  { destruct (Rlt_dec 7 y) as [|N]; [assumption | exfalso].
    assert (y * y <= 49) by nra. nra. }
  assert (H8 : y < 8).
  { destruct (Rlt_dec y 8) as [|N]; [assumption | exfalso].
    assert (64 <= y * y) by nra. nra. }
  assert (E : Rpower 4000 (-0.25) = / y).
  { unfold y. rewrite <- Rpower_Ropp. f_equal. lra. }
  rewrite E.
  assert (Hi8 : / 8 < / y) by (apply Rinv_lt_contravar; nra).
  assert (Hi7 : / y < / 7) by (apply Rinv_lt_contravar; nra).
  lra.
Qed.

(** ** Transitional regime *)

(** The value of the transitional branch, given the turbulent endpoint. *)
Lemma friction_factor_transitional (Re D eps ft : R) (m : string) :
  2000 <= Re <= 4000 ->
  (if String.eqb m "blasius" then friction_factor_blasius 4000
   else friction_factor_haaland 4000 D eps) = Ok ft ->
  friction_factor Re D eps m =
    Ok ((1 - (Re - 2000) / 2000) * (64 / Re) + (Re - 2000) / 2000 * ft).
Proof.
  intros [H2 H4] Hft. unfold friction_factor. cases_cmp.
  rewrite friction_factor_laminar_ok by lra. cbn [bind].
  rewrite Hft. reflexivity.
Qed.




(** ** Methods other than blasius in the transitional regime *)




(** ** Unknown methods *)

(** C4 at a concrete input: the unknown method [colebrook] is rejected
    above 4000 but accepted in the transitional band, where it gets the
    value of method haaland. *)
Theorem unknown_method_transitional_not_rejected :
  friction_factor 5000 0.05 0.00001 "colebrook" =
    Raise (ValueError "Método de correlación no reconocido: colebrook") /\
  exists f,
    friction_factor 3000 0.05 0.00001 "colebrook" = Ok f /\
    friction_factor 3000 0.05 0.00001 "haaland" = Ok f.
Proof.
  split.
  - unfold friction_factor. cases_cmp. reflexivity.
  - destruct (haaland_term_below_1 4000 0.05 0.00001) as (t & Ht & _ & Ht1);
      try lra.
    destruct (friction_factor_haaland_ok 4000 0.05 0.00001 t) as [Hh _];
      try lra; try assumption.
    eexists. split.
    + apply friction_factor_transitional; [lra | exact Hh].
    + apply friction_factor_transitional; [lra | exact Hh].
Qed.

(** ** Scenario B: Reynolds number 3000 *)


(** Flow rate [750 * PI] through a pipe of unit diameter, with unit
    density and viscosity: the Reynolds number is 3000. *)
Lemma compute_single_unit_3000 (L eps : R) (m : string) :
  0 < L -> 0 <= eps ->
  friction_service.compute_single_segment_head_loss
    (750 * PI) (pipe_geometries.mkPipeSegment L 1 eps "") 1 1 1 m =
  (f <- friction_factor 3000 1 eps m ;;
   Ok (friction_service.mkSegmentResult
         (friction_service.compute_area 1)
         (750 * PI / friction_service.compute_area 1)
         3000 "transicional" f
         (f * (L / 1) * (sq (750 * PI / friction_service.compute_area 1) / (2 * 1)))
         (1 * 1 * (f * (L / 1)
            * (sq (750 * PI / friction_service.compute_area 1) / (2 * 1))))
         (1 * 1 * (f * (L / 1)
            * (sq (750 * PI / friction_service.compute_area 1) / (2 * 1)))
          / 1.0e5))).
Proof.
  intros HL Heps.
  assert (Hq : 0 < 750 * PI) by (pose proof PI_RGT_0; lra).
  assert (Hseg : valid_segment (pipe_geometries.mkPipeSegment L 1 eps "")).
  { unfold valid_segment; cbn; lra. }
  destruct (compute_single_valid (750 * PI) 1 1 1 _ m
              Hq Rlt_0_1 Rlt_0_1 Rlt_0_1 Hseg) as (_ & _ & _ & Hs).
  cbn [pipe_geometries.length_m pipe_geometries.diameter_m
       pipe_geometries.roughness_m] in Hs.
  assert (E : 1 * (750 * PI / friction_service.compute_area 1) * 1 / 1 = 3000).
  { unfold friction_service.compute_area, sq. field. apply PI_neq0. }
  rewrite E in Hs. rewrite Hs.
  replace (classify_regime 3000) with "transicional"; [reflexivity |].
  unfold classify_regime. cases_cmp. reflexivity.
Qed.




(** ** Elbow composition *)

(** A returned single-segment result implies the input checks passed. *)
Lemma compute_single_ok_inv
    (q rho mu g : R) (seg : pipe_geometries.PipeSegment) (m : string)
    (r : friction_service.SegmentResult) :
  friction_service.compute_single_segment_head_loss q seg rho mu g m = Ok r ->
  0 < q /\ 0 < rho /\ 0 < mu /\ 0 < g.
Proof.
  unfold friction_service.compute_single_segment_head_loss.
  destruct (Rle_dec q 0); [discriminate |].
  destruct (Rle_dec rho 0); [discriminate |].
  destruct (Rle_dec mu 0); [discriminate |].
  destruct (Rle_dec g 0); [discriminate |].
  intros _. repeat split; lra.
Qed.

(** C5: for sub-lengths [L1], [L2] around a fitting of table coefficient
    [K], the elbow case returns the friction result [fric] of the single
    segment of length [L1 + L2] unchanged, a total head loss
    [hf_m fric + K * v^2 / (2g)] with [v] that segment's velocity, and a
    total pressure drop that is the sum of the friction and fitting
    pressure drops. *)
Theorem elbow_case_adds_fitting_loss
    (q D rho mu g L1 L2 eps K : R) (m code : string)
    (fric : friction_service.SegmentResult) :
  0 < L1 -> 0 < L2 -> 0 < D -> 0 <= eps ->
  local_losses.get_elbow_k code = Ok K ->
  friction_service.compute_single_segment_head_loss
    q (pipe_geometries.mkPipeSegment (L1 + L2) D eps "") rho mu g m = Ok fric ->
  let v := friction_service.velocity_ms fric in
  exists rep,
    main_cli._handle_pipe_with_elbow_case q D m rho mu g L1 L2 eps code
      = Ok rep /\
    main_cli.fric rep = fric /\
    main_cli.total_length rep = L1 + L2 /\
    main_cli.hf_elbow rep = K * (sq v / (2 * g)) /\
    main_cli.hf_total rep = friction_service.hf_m fric + K * (sq v / (2 * g)) /\
    main_cli.delta_p_elbow_pa rep = rho * g * (K * (sq v / (2 * g))) /\
    main_cli.delta_p_total_pa rep =
      friction_service.delta_p_pa fric + rho * g * (K * (sq v / (2 * g))).
Proof.
  intros HL1 HL2 HD Heps HK Hs v.
  destruct (compute_single_ok_inv _ _ _ _ _ _ _ Hs) as (_ & _ & _ & Hg).
  unfold main_cli._handle_pipe_with_elbow_case, main_cli._select_elbow_type.
  rewrite HK. cbn [bind].
  unfold local_losses.get_elbow_k in HK. unfold local_losses.get_elbow_label.
  destruct (local_losses.getitem local_losses.ELBOWS code) as [e |];
    [| discriminate].
  cbn [bind]. unfold pipe_geometries.new. cases_cmp. cbn [bind].
  change (friction_service.compute_single_segment_head_loss q
            (pipe_geometries.mkPipeSegment (L1 + L2) D eps
               ("Tubería con " ++ local_losses.label e)) rho mu g m)
    with (friction_service.compute_single_segment_head_loss q
            (pipe_geometries.mkPipeSegment (L1 + L2) D eps "") rho mu g m).
  rewrite Hs. cbn [bind].
  rewrite float_div_ok by lra. cbn [bind].
  eexists. split; [reflexivity |]. cbn. fold v.
  repeat split; reflexivity.
Qed.

Lemma elbow_case_adds_fitting_loss_witness :
  exists fric rep,
    friction_service.compute_single_segment_head_loss
      (PI / 4) (pipe_geometries.mkPipeSegment (4 + 6) 1 0 "") 1 1 1 "blasius"
      = Ok fric /\
    main_cli._handle_pipe_with_elbow_case
      (PI / 4) 1 "blasius" 1 1 1 4 6 0 "elbow_90_SR" = Ok rep /\
    main_cli.hf_total rep =
      friction_service.hf_m fric
      + 0.75 * (sq (friction_service.velocity_ms fric) / (2 * 1)).
Proof.
  assert (Hq : 0 < PI / 4) by (pose proof PI_RGT_0; lra).
  assert (Hseg : valid_segment (pipe_geometries.mkPipeSegment (4 + 6) 1 0 "")).
  { unfold valid_segment; cbn; lra. }
  destruct (compute_single_valid (PI / 4) 1 1 1 _ "blasius"
              Hq Rlt_0_1 Rlt_0_1 Rlt_0_1 Hseg) as (_ & _ & _ & Hs).
  cbn [pipe_geometries.length_m pipe_geometries.diameter_m
       pipe_geometries.roughness_m] in Hs.
  assert (E : 1 * (PI / 4 / friction_service.compute_area 1) * 1 / 1 = 1).
  { unfold friction_service.compute_area, sq. field. apply PI_neq0. }
  rewrite E in Hs.
  rewrite friction_factor_below_2000, friction_factor_laminar_ok in Hs by lra.
  cbn [bind] in Hs.
  assert (H4 : 0 < 4) by lra.
  assert (H6 : 0 < 6) by lra.
  destruct (elbow_case_adds_fitting_loss
              (PI / 4) 1 1 1 1 4 6 0 0.75 "blasius" "elbow_90_SR" _
              H4 H6 Rlt_0_1 (Rle_refl 0) eq_refl Hs)
    as (rep & Hrep & _ & _ & _ & Htot & _).
  eexists. exists rep. split; [exact Hs |]. split; [exact Hrep | exact Htot].
Defined.

(** ** Segments in series *)

Section Series.

Variables (q rho mu g : R) (m : string).

(** The loop appends one entry per segment, in order, and adds each
    entry's head loss and pressure drop to the accumulators. *)
Lemma series_loop_ok (segs : list pipe_geometries.PipeSegment) :
  Forall (fun seg => returns
            (friction_service.compute_single_segment_head_loss
               q seg rho mu g m)) segs ->
  forall (h0 d0 : R) (acc : list friction_service.SegInfo),
  exists infos,
    Forall2 (entry_for q rho mu g m) segs infos /\
    friction_service.series_loop q segs rho mu g m h0 d0 acc =
      Ok (h0 + sum_list
                 (map (fun i => friction_service.hf_m (friction_service.res i))
                      infos),
          d0 + sum_list
                 (map (fun i =>
                         friction_service.delta_p_pa (friction_service.res i))
                      infos),
          (acc ++ infos)%list).
Proof.
  induction 1 as [| seg rest [r Hr] _ IH]; intros h0 d0 acc.
  - exists []. split; [constructor |]. cbn.
    rewrite app_nil_r, !Rplus_0_r. reflexivity.
  - cbn [friction_service.series_loop]. rewrite Hr. cbn [bind].
    destruct (IH (h0 + friction_service.hf_m r)
                 (d0 + friction_service.delta_p_pa r)
                 (acc ++ [friction_service.mkSegInfo
                            (pipe_geometries.name seg)
                            (pipe_geometries.length_m seg)
                            (pipe_geometries.diameter_m seg)
                            (pipe_geometries.roughness_m seg) r])%list)
      as (infos & Hall & Hloop).
    exists (friction_service.mkSegInfo
              (pipe_geometries.name seg) (pipe_geometries.length_m seg)
              (pipe_geometries.diameter_m seg)
              (pipe_geometries.roughness_m seg) r :: infos).
    split.
    + constructor; [| exact Hall].
      unfold entry_for. cbn. repeat split. exact Hr.
    + rewrite Hloop, <- app_assoc.
      cbn [map sum_list fold_right app friction_service.res].
      rewrite <- !Rplus_assoc. reflexivity.
Qed.

(** A segment that raises makes the loop raise the same exception. *)
Lemma series_loop_raise (seg : pipe_geometries.PipeSegment) (e : exn)
    (h0 d0 : R) (acc : list friction_service.SegInfo) :
  friction_service.compute_single_segment_head_loss q seg rho mu g m
    = Raise e ->
  friction_service.series_loop q [seg] rho mu g m h0 d0 acc = Raise e.
Proof.
  intros He. cbn [friction_service.series_loop].
  rewrite He. reflexivity.
Qed.

End Series.

(** Method blasius returns a friction factor for every positive [Re]. *)
Lemma friction_factor_blasius_returns (Re D eps : R) :
  0 < Re -> returns (friction_factor Re D eps "blasius").
Proof.
  intros HRe. unfold returns, friction_factor.
  cbn [String.eqb Ascii.eqb Bool.eqb]. cases_cmp.
  - rewrite friction_factor_laminar_ok by lra. eauto.
  - rewrite friction_factor_blasius_ok by lra. eauto.
  - rewrite friction_factor_laminar_ok, friction_factor_blasius_ok by lra.
    cbn [bind]. eauto.
Qed.

(** Method haaland returns a friction factor for every positive [Re] when
    the roughness is at most 3.69 diameters. *)
Lemma friction_factor_haaland_returns (Re D eps : R) :
  0 < Re -> 0 < D -> 0 <= eps -> eps <= 3.69 * D ->
  returns (friction_factor Re D eps "haaland").
Proof.
  intros HRe HD Heps Hrough. unfold returns, friction_factor.
  cbn [String.eqb Ascii.eqb Bool.eqb]. cases_cmp.
  - rewrite friction_factor_laminar_ok by lra. eauto.
  - destruct (haaland_term_below_1 Re D eps) as (t & Ht & _ & Ht1); try lra.
    destruct (friction_factor_haaland_ok Re D eps t) as [-> _];
      try lra; try assumption.
    eauto.
  - destruct (haaland_term_below_1 4000 D eps) as (t & Ht & _ & Ht1); try lra.
    destruct (friction_factor_haaland_ok 4000 D eps t) as [Hh _];
      try lra; try assumption.
    rewrite friction_factor_laminar_ok, Hh by lra. cbn [bind]. eauto.
Qed.

(** On valid inputs the single-segment computation returns as soon as the
    friction factor does. *)
Lemma compute_single_returns
    (q rho mu g : R) (seg : pipe_geometries.PipeSegment) (m : string) :
  0 < q -> 0 < rho -> 0 < mu -> 0 < g -> valid_segment seg ->
  (forall Re, 0 < Re ->
     returns (friction_factor Re (pipe_geometries.diameter_m seg)
                (pipe_geometries.roughness_m seg) m)) ->
  returns (friction_service.compute_single_segment_head_loss q seg rho mu g m).
Proof.
  intros Hq Hrho Hmu Hg Hseg Hf.
  destruct (compute_single_valid q rho mu g seg m Hq Hrho Hmu Hg Hseg)
    as (_ & _ & HRe & ->).
  destruct (Hf _ HRe) as [f ->]. cbn [bind]. unfold returns. eauto.
Qed.

(** The left-to-right sum from 0 is the sum of the list. *)
Lemma sum_left_sum_list (l : list R) : sum_left l = sum_list l.
Proof.
  unfold sum_left.
  assert (H : forall a, fold_left Rplus l a = a + sum_list l).
  { induction l as [| x l IH]; intros a; cbn [fold_left].
    - unfold sum_list. cbn. lra.
    - rewrite IH. unfold sum_list. cbn. lra. }
  rewrite H. lra.
Qed.

(** C3, amended: for a non-empty list of valid segments and valid inputs
    on which the single-segment computation returns for every segment,
    [compute_series_head_loss] returns a result with one entry per
    segment in input order, whose [hf_total_m] and [delta_p_total_pa]
    are the sums of the entries' [hf_m] and [delta_p_pa], added from 0
    in input order, and whose [delta_p_total_bar] is the Pa total divided
    by 1e5. *)
Theorem series_head_loss_totals
    (q rho mu g : R) (segs : list pipe_geometries.PipeSegment) (m : string) :
  segs <> [] ->
  0 < q -> 0 < rho -> 0 < mu -> 0 < g -> Forall valid_segment segs ->
  Forall (fun s => returns
            (friction_service.compute_single_segment_head_loss
               q s rho mu g m)) segs ->
  exists sr,
    friction_service.compute_series_head_loss q segs rho mu g m = Ok sr /\
    Forall2 (entry_for q rho mu g m) segs
            (friction_service.segments_results sr) /\
    friction_service.hf_total_m sr =
      sum_left (map (fun i => friction_service.hf_m (friction_service.res i))
                    (friction_service.segments_results sr)) /\
    friction_service.delta_p_total_pa sr =
      sum_left (map (fun i =>
                       friction_service.delta_p_pa (friction_service.res i))
                    (friction_service.segments_results sr)) /\
    friction_service.delta_p_total_bar sr =
      friction_service.delta_p_total_pa sr / 1.0e5.
Proof.
  intros Hne Hq Hrho Hmu Hg Hvalid Hret.
  destruct (series_loop_ok q rho mu g m segs Hret 0 0 [])
    as (infos & Hall & Hloop).
  unfold friction_service.compute_series_head_loss.
  destruct segs as [| s0 rest]; [contradiction |].
  rewrite Hloop. cbn [bind app].
  eexists. split; [reflexivity |].
  cbn [friction_service.segments_results friction_service.hf_total_m
       friction_service.delta_p_total_pa friction_service.delta_p_total_bar].
  split; [exact Hall |].
  rewrite !sum_left_sum_list.
  repeat split; apply Rplus_0_l.
Qed.

Lemma series_head_loss_totals_witness :
  exists sr,
    friction_service.compute_series_head_loss
      (PI / 4)
      [pipe_geometries.mkPipeSegment 4 1 0 "a";
       pipe_geometries.mkPipeSegment 6 1 0 "b"] 1 1 1 "blasius" = Ok sr /\
    friction_service.hf_total_m sr =
      sum_left (map (fun i => friction_service.hf_m (friction_service.res i))
                    (friction_service.segments_results sr)).
Proof.
  assert (Hq : 0 < PI / 4) by (pose proof PI_RGT_0; lra).
  destruct (series_head_loss_totals (PI / 4) 1 1 1
              [pipe_geometries.mkPipeSegment 4 1 0 "a";
               pipe_geometries.mkPipeSegment 6 1 0 "b"] "blasius")
    as (sr & Hsr & _ & Hhf & _); try lra.
  - discriminate.
  - repeat constructor; cbn; lra.
  - repeat constructor;
      (apply compute_single_returns; try lra;
       [unfold valid_segment; cbn; lra
       | intros Re HRe; apply friction_factor_blasius_returns; exact HRe]).
  - exists sr. split; assumption.
Defined.

(** C3 as stated fails: one valid segment of unit diameter and roughness
    [eps_singular], at Reynolds number 3000 with method haaland, makes the
    series computation raise. *)
Lemma series_head_loss_totals_counterexample :
  0 < 750 * PI /\
  valid_segment (pipe_geometries.mkPipeSegment 1 1 eps_singular "") /\
  friction_service.compute_series_head_loss
    (750 * PI) [pipe_geometries.mkPipeSegment 1 1 eps_singular ""] 1 1 1
    "haaland" = Raise ZeroDivisionError.
Proof.
  pose proof eps_singular_pos as Heps.
  split; [pose proof PI_RGT_0; lra |].
  split; [unfold valid_segment; cbn; lra |].
  unfold friction_service.compute_series_head_loss.
  rewrite series_loop_raise with (e := ZeroDivisionError); [reflexivity |].
  rewrite compute_single_unit_3000 by lra.
  rewrite friction_factor_eps_singular by (lra || reflexivity).
  reflexivity.
Qed.

(** * Further properties of the correlations *)



(** X2: with method blasius the diameter and the roughness are neither
    checked nor used: for every [Re > 0] the call returns a value, the
    same for all diameters and roughnesses, invalid ones included. *)
Theorem blasius_ignores_geometry (Re D eps D' eps' : R) :
  0 < Re ->
  exists f,
    friction_factor Re D eps "blasius" = Ok f /\
    friction_factor Re D' eps' "blasius" = Ok f.
Proof.
  intros HRe.
  destruct (friction_factor_blasius_returns Re D eps HRe) as [f Hf].
  exists f. split; [exact Hf |].
  rewrite <- Hf. unfold friction_factor.
  cbn [String.eqb Ascii.eqb Bool.eqb]. reflexivity.
Qed.

Lemma blasius_ignores_geometry_witness :
  exists f,
    friction_factor 3000 0.05 0 "blasius" = Ok f /\
    friction_factor 3000 (-1) (-1) "blasius" = Ok f.
Proof. apply (blasius_ignores_geometry 3000 0.05 0 (-1) (-1)). lra. Defined.

(** X3: above 4000 a method outside blasius and haaland is rejected with
    an invalid-input error whose message ends with the method, whatever
    the diameter and the roughness. *)
Theorem turbulent_unknown_method_rejected (Re D eps : R) (m : string) :
  4000 < Re -> m <> "blasius" -> m <> "haaland" ->
  friction_factor Re D eps m =
    Raise (ValueError ("Método de correlación no reconocido: " ++ m)).
Proof.
  intros HRe Hb Hh.
  apply String.eqb_neq in Hb. apply String.eqb_neq in Hh.
  rewrite friction_factor_turbulent by assumption.
  unfold turbulent_correlation. rewrite Hb, Hh. reflexivity.
Qed.

Lemma turbulent_unknown_method_rejected_witness :
  friction_factor 25000 0.05 0 "colebrook" =
    Raise (ValueError "Método de correlación no reconocido: colebrook").
Proof.
  apply (turbulent_unknown_method_rejected 25000 0.05 0 "colebrook");
    [lra | discriminate | discriminate].
Defined.

(** X4: the label of [classify_regime] tells which branch
    [friction_factor] takes: for [Re > 0], "laminar" gives [64/Re] for
    every method, "turbulento" gives the turbulent correlation of the
    method at [Re], and "transicional" means [2000 <= Re <= 4000]. *)
Theorem regime_label_matches_dispatch (Re D eps : R) (m : string) :
  0 < Re ->
  (classify_regime Re = "laminar" /\ Re < 2000 /\
   friction_factor Re D eps m = Ok (64 / Re)) \/
  (classify_regime Re = "transicional" /\ 2000 <= Re <= 4000 /\
   friction_factor Re D eps m =
     (f_turb <- (if String.eqb m "blasius" then friction_factor_blasius 4000
                 else friction_factor_haaland 4000 D eps) ;;
      Ok ((1 - (Re - 2000) / 2000) * (64 / Re)
          + (Re - 2000) / 2000 * f_turb))) \/
  (classify_regime Re = "turbulento" /\ 4000 < Re /\
   friction_factor Re D eps m = turbulent_correlation m Re D eps).
Proof.
  intros HRe. unfold classify_regime.
  destruct (Rlt_dec Re 2000) as [Hl | Hl].
  - left. repeat split; try assumption.
    rewrite friction_factor_below_2000 by assumption.
    apply friction_factor_laminar_ok. assumption.
  - destruct (Rle_dec Re 4000) as [Ht | Ht].
    + right; left. repeat split; try lra.
      unfold friction_factor. cases_cmp.
      rewrite friction_factor_laminar_ok by lra. reflexivity.
    + right; right. repeat split; try lra.
      apply friction_factor_turbulent. lra.
Qed.

Lemma regime_label_matches_dispatch_witness :
  classify_regime 25000 = "turbulento" /\
  friction_factor 25000 0.05 0 "blasius"
    = turbulent_correlation "blasius" 25000 0.05 0.
Proof.
  destruct (regime_label_matches_dispatch 25000 0.05 0 "blasius")
    as [(_ & H & _) | [(_ & H & _) | (Hc & _ & Hf)]]; try lra.
  split; assumption.
Defined.





(** * Further properties of segments and of the elbow table *)



(** X9: the elbow table knows exactly four codes.  For each of them
    [get_elbow_k] and [get_elbow_label] both succeed, with a coefficient
    strictly between 0 and 1; for every other code both raise the
    invalid-input error that names the code. *)
Theorem elbow_table_lookup (code : string) :
  (In code ["elbow_90_SR"; "elbow_90_LR"; "elbow_45_SR"; "elbow_45_LR"] /\
   exists k l,
     local_losses.get_elbow_k code = Ok k /\
     local_losses.get_elbow_label code = Ok l /\
     main_cli._select_elbow_type code = Ok (code, k, l) /\
     0 < k < 1) \/
  (~ In code ["elbow_90_SR"; "elbow_90_LR"; "elbow_45_SR"; "elbow_45_LR"] /\
   local_losses.get_elbow_k code
     = Raise (ValueError ("Tipo de codo desconocido: " ++ code)) /\
   local_losses.get_elbow_label code
     = Raise (ValueError ("Tipo de codo desconocido: " ++ code))).
Proof.
  unfold main_cli._select_elbow_type, local_losses.get_elbow_k,
    local_losses.get_elbow_label, local_losses.ELBOWS.
  cbn [local_losses.getitem].
  destruct (String.eqb_spec "elbow_90_SR" code) as [<- | N1].
  { left. split; [cbn; auto |]. do 2 eexists. cbn. repeat split; lra. }
  destruct (String.eqb_spec "elbow_90_LR" code) as [<- | N2].
  { left. split; [cbn; auto |]. do 2 eexists. cbn. repeat split; lra. }
  destruct (String.eqb_spec "elbow_45_SR" code) as [<- | N3].
  { left. split; [cbn; auto |]. do 2 eexists. cbn. repeat split; lra. }
  destruct (String.eqb_spec "elbow_45_LR" code) as [<- | N4].
  { left. split; [cbn; auto |]. do 2 eexists. cbn. repeat split; lra. }
  right. split; [| split; reflexivity].
  cbn. intros [H | [H | [H | [H | []]]]]; congruence.
Qed.

Lemma elbow_table_lookup_witness :
  local_losses.get_elbow_k "tee"
    = Raise (ValueError "Tipo de codo desconocido: tee").
Proof.
  destruct (elbow_table_lookup "tee") as [[Hin _] | (_ & H & _)].
  - exfalso. cbn in Hin.
    destruct Hin as [H | [H | [H | [H | []]]]]; discriminate.
  - exact H.
Defined.

(** * Further properties of the single-segment computation *)






(** * Further properties of the series computation *)

Section SeriesMore.

Variables (q rho mu g : R) (m : string).

(** The loop stops at the first segment that raises. *)
Lemma series_loop_first_error
    (pre post : list pipe_geometries.PipeSegment)
    (s : pipe_geometries.PipeSegment) (e : exn) :
  Forall (fun seg => returns
            (friction_service.compute_single_segment_head_loss
               q seg rho mu g m)) pre ->
  friction_service.compute_single_segment_head_loss q s rho mu g m = Raise e ->
  forall (h0 d0 : R) (acc : list friction_service.SegInfo),
  friction_service.series_loop q (pre ++ s :: post) rho mu g m h0 d0 acc
    = Raise e.
Proof.
  intros Hpre Hs. induction Hpre as [| seg rest [r Hr] _ IH]; intros h0 d0 acc.
  - cbn [app friction_service.series_loop]. rewrite Hs. reflexivity.
  - cbn [app friction_service.series_loop]. rewrite Hr. cbn [bind].
    apply IH.
Qed.

End SeriesMore.

(** X16: the series computation returns no partial result: if a segment
    raises and every segment before it returns, the call raises that
    segment's exception, whatever follows it in the list. *)
Theorem series_raises_first_error
    (q rho mu g : R) (pre post : list pipe_geometries.PipeSegment)
    (s : pipe_geometries.PipeSegment) (m : string) (e : exn) :
  Forall (fun seg => returns
            (friction_service.compute_single_segment_head_loss
               q seg rho mu g m)) pre ->
  friction_service.compute_single_segment_head_loss q s rho mu g m = Raise e ->
  friction_service.compute_series_head_loss q (pre ++ s :: post) rho mu g m
    = Raise e.
Proof.
  intros Hpre Hs.
  unfold friction_service.compute_series_head_loss.
  rewrite (series_loop_first_error q rho mu g m pre post s e Hpre Hs).
  destruct pre; reflexivity.
Qed.

Lemma series_raises_first_error_witness :
  friction_service.compute_series_head_loss (750 * PI)
    ([pipe_geometries.mkPipeSegment 1 1 0 ""]
     ++ pipe_geometries.mkPipeSegment 1 1 eps_singular ""
     :: [pipe_geometries.mkPipeSegment 1 1 0 ""]) 1 1 1 "haaland"
    = Raise ZeroDivisionError.
Proof.
  pose proof eps_singular_pos as Heps.
  apply series_raises_first_error.
  - constructor; [| constructor].
    apply compute_single_returns; try lra.
    + pose proof PI_RGT_0; lra.
    + unfold valid_segment; cbn; lra.
    + intros Re HRe. cbn. apply friction_factor_haaland_returns; lra.
  - rewrite compute_single_unit_3000 by lra.
    rewrite friction_factor_eps_singular by (lra || reflexivity).
    reflexivity.
Defined.

(** * Further properties of the elbow case *)

Lemma getitem_elbows (code : string) (e : local_losses.elbow) :
  local_losses.getitem local_losses.ELBOWS code = Some e ->
  In code ["elbow_90_SR"; "elbow_90_LR"; "elbow_45_SR"; "elbow_45_LR"] /\
  0 < local_losses.K e < 1.
Proof.
  unfold local_losses.ELBOWS. cbn [local_losses.getitem].
  destruct (String.eqb_spec "elbow_90_SR" code) as [<- | N1].
  { intros H. injection H as <-. cbn. split; [auto | lra]. }
  destruct (String.eqb_spec "elbow_90_LR" code) as [<- | N2].
  { intros H. injection H as <-. cbn. split; [auto | lra]. }
  destruct (String.eqb_spec "elbow_45_SR" code) as [<- | N3].
  { intros H. injection H as <-. cbn. split; [auto | lra]. }
  destruct (String.eqb_spec "elbow_45_LR" code) as [<- | N4].
  { intros H. injection H as <-. cbn. split; [auto 6 | lra]. }
  discriminate.
Qed.

Lemma getitem_elbows_none (code : string) :
  ~ In code ["elbow_90_SR"; "elbow_90_LR"; "elbow_45_SR"; "elbow_45_LR"] ->
  local_losses.getitem local_losses.ELBOWS code = None.
Proof.
  intros Hn.
  destruct (local_losses.getitem local_losses.ELBOWS code) as [e |] eqn:E;
    [| reflexivity].
  destruct (getitem_elbows code e E) as [Hin _]. contradiction.
Qed.






(** * The mesh recommender *)

Lemma ceil_bounds (x : R) : x <= IZR (ceil x) < x + 1.
Proof.
  unfold ceil. rewrite minus_IZR.
  destruct (archimed (- x)) as [H1 H2]. lra.
Qed.

Lemma ceil_pos (x : R) : 0 < x -> (0 < ceil x)%Z.
Proof.
  intros Hx. apply lt_IZR. pose proof (ceil_bounds x). lra.
Qed.

(** The three levels of the table and what the proofs use of them. *)
Lemma level_configs_lookup (key : string) (cfg : meshgen_config.LevelConfig) :
  local_losses.getitem meshgen_config.LEVEL_CONFIGS key = Some cfg ->
  In key ["coarse"; "medium"; "fine"] /\
  meshgen_config.name cfg = key /\
  (0 < meshgen_config.N_bulk cfg)%Z /\
  (0 < meshgen_config.N_theta cfg)%Z /\
  (meshgen_config.N_theta cfg <= 6 * meshgen_config.N_bulk cfg)%Z /\
  (0 < meshgen_config.N_arc_min cfg)%Z /\
  (0 < meshgen_config.N_in_max cfg)%Z /\
  (0 < meshgen_config.N_out_max cfg)%Z /\
  0 < meshgen_config.viscous_total_thickness_factor cfg /\
  0 < meshgen_config.chordal_error_factor cfg.
Proof.
  unfold meshgen_config.LEVEL_CONFIGS. cbn [local_losses.getitem].
  destruct (String.eqb_spec "coarse" key) as [<- | N1].
  { intros H. injection H as <-. cbn. repeat split; auto; lia || lra. }
  destruct (String.eqb_spec "medium" key) as [<- | N2].
  { intros H. injection H as <-. cbn. repeat split; auto; lia || lra. }
  destruct (String.eqb_spec "fine" key) as [<- | N3].
  { intros H. injection H as <-. cbn. repeat split; auto; lia || lra. }
  discriminate.
Qed.

Section MeshProps.

Variable strip_lower : string -> string.
Variable fmt_d : Z -> string.
Variable fmt_2f : R -> string.
Variable fmt_1f : R -> string.

Lemma validate_geometry_ok (g : meshgen_calculator.GeometryInput) :
  valid_geometry g -> meshgen_calculator._validate_geometry g = Ok tt.
Proof.
  intros (HD & HR & Ht & Hi & Ho).
  unfold meshgen_calculator._validate_geometry. cases_cmp. reflexivity.
Qed.


Lemma validate_geometry_inv (g : meshgen_calculator.GeometryInput) (u : unit) :
  meshgen_calculator._validate_geometry g = Ok u -> valid_geometry g.
Proof.
  unfold meshgen_calculator._validate_geometry, valid_geometry.
  destruct (Rle_dec (meshgen_calculator.D g) 0); [discriminate |].
  destruct (Rle_dec (meshgen_calculator.R_elbow g) 0); [discriminate |].
  destruct (Rle_dec (meshgen_calculator.theta_deg g) 0); [discriminate |].
  destruct (Rlt_dec (meshgen_calculator.L_in g) 0); [discriminate |].
  destruct (Rlt_dec (meshgen_calculator.L_out g) 0); [discriminate |].
  intros _. lra.
Qed.

(** The sizes, counts and thickness of a returned recommendation, in
    terms of the geometry and of the level's configuration. *)
Lemma compute_mesh_inv
    (geom : meshgen_calculator.GeometryInput)
    (rec : meshgen_calculator.MeshRecommendations) :
  meshgen_calculator.compute_mesh_recommendations
    strip_lower fmt_d fmt_2f fmt_1f geom = Ok rec ->
  valid_geometry geom /\
  exists cfg,
    local_losses.getitem meshgen_config.LEVEL_CONFIGS
      (strip_lower (meshgen_calculator.level geom)) = Some cfg /\
    let Dm := meshgen_calculator.D geom in
    let s_bulk := Dm / IZR (meshgen_config.N_bulk cfg) in
    let s_elbow := Dm / IZR (2 * meshgen_config.N_bulk cfg) in
    let s_theta := PI * Dm / IZR (meshgen_config.N_theta cfg) in
    let L_arc := meshgen_calculator.theta_deg geom * (PI / 180)
                 * meshgen_calculator.R_elbow geom in
    let N_in_raw := if Rgt_dec (meshgen_calculator.L_in geom) 0
                    then ceil (meshgen_calculator.L_in geom / s_bulk)
                    else 0%Z in
    let N_out_raw := if Rgt_dec (meshgen_calculator.L_out geom) 0
                     then ceil (meshgen_calculator.L_out geom / s_bulk)
                     else 0%Z in
    let N_arc_raw := ceil (L_arc / s_elbow) in
    let tight :=
      if Rlt_dec (meshgen_calculator.R_elbow geom / Dm) 1.2
      then (if Rge_dec (meshgen_calculator.theta_deg geom) 45
            then true else false)
      else false in
    let N_arc_min :=
      if tight then ceil (1.5 * IZR (meshgen_config.N_arc_min cfg))
      else meshgen_config.N_arc_min cfg in
    meshgen_calculator.rec_level rec = meshgen_config.name cfg /\
    meshgen_calculator.geometry rec = geom /\
    meshgen_calculator.netgen_3d rec =
      meshgen_calculator.mkNetgen3DParams s_bulk (s_bulk / 3)
        (meshgen_config.growth_rate cfg) /\
    meshgen_calculator.local_sizes rec =
      meshgen_calculator.mkLocalSizeParams s_bulk s_elbow s_theta
        (Rmin s_elbow s_theta) s_bulk /\
    meshgen_calculator.segments_1d rec =
      meshgen_calculator.mkOneDParams
        (if (0 <? N_in_raw)%Z
         then Z.min N_in_raw (meshgen_config.N_in_max cfg) else 0%Z)
        (if (0 <? N_out_raw)%Z
         then Z.min N_out_raw (meshgen_config.N_out_max cfg) else 0%Z)
        (if (0 <? N_arc_raw)%Z then Z.max N_arc_raw N_arc_min else 0%Z)
        N_in_raw N_out_raw N_arc_raw /\
    meshgen_calculator.viscous_layers rec =
      meshgen_calculator.mkViscousLayerParams
        (meshgen_config.viscous_total_thickness_factor cfg * Dm)
        (meshgen_config.viscous_layers cfg)
        (meshgen_config.viscous_stretch cfg) /\
    meshgen_calculator.chordal_error (meshgen_calculator.netgen_arguments rec)
      = meshgen_config.chordal_error_factor cfg * Rmin s_elbow s_theta /\
    length (meshgen_calculator.notes rec) =
      ((if (meshgen_config.N_in_max cfg <? N_in_raw)%Z then 1 else 0)
       + (if (meshgen_config.N_out_max cfg <? N_out_raw)%Z then 1 else 0)
       + (if tight then 1 else 0) + 2)%nat.
Proof.
  unfold meshgen_calculator.compute_mesh_recommendations.
  destruct (meshgen_calculator._validate_geometry geom) as [u | e] eqn:Hv;
    cbn [bind]; [| discriminate].
  pose proof (validate_geometry_inv geom u Hv) as Hvalid.
  unfold meshgen_config.get_level_config.
  destruct (local_losses.getitem meshgen_config.LEVEL_CONFIGS
              (strip_lower (meshgen_calculator.level geom)))
    as [cfg |] eqn:Hcfg; cbn [bind]; [| discriminate].
  destruct (level_configs_lookup _ _ Hcfg)
    as (_ & _ & HNb & HNt & _ & _ & _ & _ & _ & _).
  destruct Hvalid as (HD & HR & Ht & Hi & Ho).
  assert (HNb' : 0 < IZR (meshgen_config.N_bulk cfg)) by (apply IZR_lt; lia).
  assert (HNe' : 0 < IZR (2 * meshgen_config.N_bulk cfg))
    by (apply IZR_lt; lia).
  assert (HNt' : 0 < IZR (meshgen_config.N_theta cfg)) by (apply IZR_lt; lia).
  rewrite !float_div_ok by lra. cbn [bind].
  set (Dm := meshgen_calculator.D geom) in *.
  set (s_bulk := Dm / IZR (meshgen_config.N_bulk cfg)).
  set (s_elbow := Dm / IZR (2 * meshgen_config.N_bulk cfg)).
  assert (Hsb : 0 < s_bulk) by (apply Rdiv_lt_0_compat; assumption).
  assert (Hse : 0 < s_elbow) by (apply Rdiv_lt_0_compat; assumption).
  assert (Harc : 0 < meshgen_calculator.theta_deg geom * (PI / 180)
                     * meshgen_calculator.R_elbow geom).
  { pose proof PI_RGT_0. apply Rmult_lt_0_compat; [| assumption].
    apply Rmult_lt_0_compat; lra. }
  destruct (Rgt_dec (meshgen_calculator.L_in geom) 0);
    [rewrite float_div_ok by lra |]; cbn [bind];
  (destruct (Rgt_dec (meshgen_calculator.L_out geom) 0);
    [rewrite float_div_ok by lra |]; cbn [bind];
   (destruct (Rgt_dec (meshgen_calculator.theta_deg geom * (PI / 180)
                       * meshgen_calculator.R_elbow geom) 0); [| lra];
    rewrite float_div_ok by lra; cbn [bind];
    intros H; injection H as <-;
    split; [unfold valid_geometry; fold Dm; lra |];
    exists cfg; split; [reflexivity |];
    cbn [meshgen_calculator.rec_level meshgen_calculator.geometry
         meshgen_calculator.netgen_3d meshgen_calculator.local_sizes
         meshgen_calculator.segments_1d meshgen_calculator.viscous_layers
         meshgen_calculator.netgen_arguments meshgen_calculator.chordal_error
         meshgen_calculator.notes];
    repeat (split; [reflexivity |]);
    subst s_bulk s_elbow;
    repeat match goal with
           | |- context [Z.ltb ?a ?b] => destruct (Z.ltb a b)
           | |- context [Rlt_dec ?a ?b] => destruct (Rlt_dec a b)
           | |- context [Rge_dec ?a ?b] => destruct (Rge_dec a b)
           end; reflexivity)).
Qed.



(** A valid geometry with a level of the table gets a recommendation. *)
Lemma compute_mesh_returns
    (geom : meshgen_calculator.GeometryInput)
    (cfg : meshgen_config.LevelConfig) :
  valid_geometry geom ->
  local_losses.getitem meshgen_config.LEVEL_CONFIGS
    (strip_lower (meshgen_calculator.level geom)) = Some cfg ->
  returns (meshgen_calculator.compute_mesh_recommendations
             strip_lower fmt_d fmt_2f fmt_1f geom).
Proof.
  intros Hvalid Hcfg.
  unfold meshgen_calculator.compute_mesh_recommendations.
  rewrite (validate_geometry_ok geom Hvalid). cbn [bind].
  unfold meshgen_config.get_level_config. rewrite Hcfg. cbn [bind].
  destruct (level_configs_lookup _ _ Hcfg)
    as (_ & _ & HNb & HNt & _ & _ & _ & _ & _ & _).
  destruct Hvalid as (HD & HR & Ht & Hi & Ho).
  assert (HNb' : 0 < IZR (meshgen_config.N_bulk cfg)) by (apply IZR_lt; lia).
  assert (HNe' : 0 < IZR (2 * meshgen_config.N_bulk cfg))
    by (apply IZR_lt; lia).
  assert (HNt' : 0 < IZR (meshgen_config.N_theta cfg)) by (apply IZR_lt; lia).
  rewrite !float_div_ok by lra. cbn [bind].
  assert (Hsb : 0 < meshgen_calculator.D geom
                    / IZR (meshgen_config.N_bulk cfg))
    by (apply Rdiv_lt_0_compat; assumption).
  assert (Hse : 0 < meshgen_calculator.D geom
                    / IZR (2 * meshgen_config.N_bulk cfg))
    by (apply Rdiv_lt_0_compat; assumption).
  destruct (Rgt_dec (meshgen_calculator.L_in geom) 0);
    [rewrite float_div_ok by lra |]; cbn [bind];
  (destruct (Rgt_dec (meshgen_calculator.L_out geom) 0);
    [rewrite float_div_ok by lra |]; cbn [bind];
   (destruct (Rgt_dec (meshgen_calculator.theta_deg geom * (PI / 180)
                       * meshgen_calculator.R_elbow geom) 0);
      [rewrite float_div_ok by lra |]; cbn [bind];
    unfold returns; eauto)).
Qed.


End MeshProps.

Section MeshBounds.

Variable strip_lower : string -> string.
Variable fmt_d : Z -> string.
Variable fmt_2f : R -> string.
Variable fmt_1f : R -> string.

(** [math.ceil] of an integer. *)
Lemma ceil_IZR (n : Z) : ceil (IZR n) = n.
Proof.
  destruct (ceil_bounds (IZR n)) as [H1 H2].
  apply le_IZR in H1.
  assert (H3 : (ceil (IZR n) < n + 1)%Z).
  { apply lt_IZR. rewrite plus_IZR. exact H2. }
  lia.
Qed.

(** For the three levels the raised minimum [ceil (1.5 * N_arc_min)] is
    exactly one and a half times the level's minimum. *)
Lemma level_configs_arc_min (key : string) (cfg : meshgen_config.LevelConfig) :
  local_losses.getitem meshgen_config.LEVEL_CONFIGS key = Some cfg ->
  (2 * ceil (1.5 * IZR (meshgen_config.N_arc_min cfg))
   = 3 * meshgen_config.N_arc_min cfg)%Z.
Proof.
  unfold meshgen_config.LEVEL_CONFIGS. cbn [local_losses.getitem].
  destruct (String.eqb "coarse" key).
  { intros H. injection H as <-. cbn [meshgen_config.N_arc_min].
    replace (1.5 * 20) with (IZR 30) by lra. rewrite ceil_IZR. reflexivity. }
  destruct (String.eqb "medium" key).
  { intros H. injection H as <-. cbn [meshgen_config.N_arc_min].
    replace (1.5 * 36) with (IZR 54) by lra. rewrite ceil_IZR. reflexivity. }
  destruct (String.eqb "fine" key).
  { intros H. injection H as <-. cbn [meshgen_config.N_arc_min].
    replace (1.5 * 48) with (IZR 72) by lra. rewrite ceil_IZR. reflexivity. }
  discriminate.
Qed.

(** X21: in a returned recommendation the recommended inlet and outlet
    counts are the raw counts clamped to the level's maximum: each is the
    smaller of the raw count and the maximum, so never negative, never
    above either; and a zero length gets no segment at all. *)
Theorem mesh_straight_segment_counts
    (geom : meshgen_calculator.GeometryInput)
    (rec : meshgen_calculator.MeshRecommendations) :
  meshgen_calculator.compute_mesh_recommendations
    strip_lower fmt_d fmt_2f fmt_1f geom = Ok rec ->
  let seg := meshgen_calculator.segments_1d rec in
  exists cfg,
    local_losses.getitem meshgen_config.LEVEL_CONFIGS
      (strip_lower (meshgen_calculator.level geom)) = Some cfg /\
    (meshgen_calculator.N_in seg
       = Z.min (meshgen_calculator.N_in_raw seg)
               (meshgen_config.N_in_max cfg))%Z /\
    (meshgen_calculator.N_out seg
       = Z.min (meshgen_calculator.N_out_raw seg)
               (meshgen_config.N_out_max cfg))%Z /\
    (0 <= meshgen_calculator.N_in seg <= meshgen_config.N_in_max cfg)%Z /\
    (0 <= meshgen_calculator.N_out seg <= meshgen_config.N_out_max cfg)%Z /\
    (meshgen_calculator.L_in geom = 0 ->
     meshgen_calculator.N_in_raw seg = 0%Z /\
     meshgen_calculator.N_in seg = 0%Z) /\
    (meshgen_calculator.L_out geom = 0 ->
     meshgen_calculator.N_out_raw seg = 0%Z /\
     meshgen_calculator.N_out seg = 0%Z).
Proof.
  intros Hrec seg.
  destruct (compute_mesh_inv strip_lower fmt_d fmt_2f fmt_1f geom rec Hrec)
    as ((HD & _ & _ & Hi & Ho) & cfg & Hcfg & Hrest).
  cbv zeta in Hrest.
  destruct Hrest as (_ & _ & _ & _ & Hseg & _).
  destruct (level_configs_lookup _ _ Hcfg)
    as (_ & _ & HNb & _ & _ & _ & HNi & HNo & _ & _).
  exists cfg. split; [exact Hcfg |].
  unfold seg. rewrite Hseg. clear Hseg seg.
  cbn [meshgen_calculator.N_in meshgen_calculator.N_out
       meshgen_calculator.N_in_raw meshgen_calculator.N_out_raw].
  set (sb := meshgen_calculator.D geom / IZR (meshgen_config.N_bulk cfg)).
  assert (Hsb : 0 < sb).
  { apply Rdiv_lt_0_compat; [assumption | apply IZR_lt; lia]. }
  assert (Hraw : forall L, 0 <= L ->
            let n := if Rgt_dec L 0 then ceil (L / sb) else 0%Z in
            forall Nmax, (0 < Nmax)%Z ->
            ((if (0 <? n)%Z then Z.min n Nmax else 0%Z) = Z.min n Nmax) /\
            (0 <= (if (0 <? n)%Z then Z.min n Nmax else 0%Z) <= Nmax)%Z /\
            (L = 0 ->
             n = 0%Z /\ (if (0 <? n)%Z then Z.min n Nmax else 0%Z) = 0%Z)).
  { intros L HL n Nmax HN. unfold n. destruct (Rgt_dec L 0) as [Hp | Hz].
    - assert (Hc : (0 < ceil (L / sb))%Z).
      { apply ceil_pos. apply Rdiv_lt_0_compat; lra. }
      apply Z.ltb_lt in Hc as Hb. rewrite Hb.
      split; [reflexivity |]. split; [lia |]. lra.
    - cbn. split; [lia |]. split; [lia |]. intros _. split; reflexivity. }
  destruct (Hraw _ Hi _ HNi) as (A1 & A2 & A3).
  destruct (Hraw _ Ho _ HNo) as (B1 & B2 & B3).
  split; [exact A1 |]. split; [exact B1 |].
  split; [exact A2 |]. split; [exact B2 |].
  split; [exact A3 | exact B3].
Qed.

(** X22: in a returned recommendation the arc of the elbow never gets
    fewer segments than its raw count, and when that count is positive,
    never fewer than the level's minimum.  For an elbow that is not
    tight ([R/D >= 1.21], or [theta < 45]) the count is the larger of
    the raw count and the level's minimum; for a tight one
    ([R/D <= 1.19] and [theta >= 45]) it is the larger of the raw count
    and one and a half times that minimum. *)
Theorem mesh_arc_segment_count
    (geom : meshgen_calculator.GeometryInput)
    (rec : meshgen_calculator.MeshRecommendations) :
  meshgen_calculator.compute_mesh_recommendations
    strip_lower fmt_d fmt_2f fmt_1f geom = Ok rec ->
  let seg := meshgen_calculator.segments_1d rec in
  let r_over_d := meshgen_calculator.R_elbow geom / meshgen_calculator.D geom in
  exists cfg,
    local_losses.getitem meshgen_config.LEVEL_CONFIGS
      (strip_lower (meshgen_calculator.level geom)) = Some cfg /\
    (meshgen_calculator.N_arc_raw seg <= meshgen_calculator.N_arc seg)%Z /\
    ((0 < meshgen_calculator.N_arc_raw seg)%Z ->
     (meshgen_config.N_arc_min cfg <= meshgen_calculator.N_arc seg)%Z /\
     (1.21 <= r_over_d \/ meshgen_calculator.theta_deg geom < 45 ->
      meshgen_calculator.N_arc seg
        = Z.max (meshgen_calculator.N_arc_raw seg)
                (meshgen_config.N_arc_min cfg)) /\
     (r_over_d <= 1.19 -> 45 <= meshgen_calculator.theta_deg geom ->
      (2 * meshgen_calculator.N_arc seg
        = Z.max (2 * meshgen_calculator.N_arc_raw seg)
                (3 * meshgen_config.N_arc_min cfg))%Z)).
Proof.
  intros Hrec seg r_over_d.
  destruct (compute_mesh_inv strip_lower fmt_d fmt_2f fmt_1f geom rec Hrec)
    as ((HD & HR & Ht & _ & _) & cfg & Hcfg & Hrest).
  cbv zeta in Hrest.
  destruct Hrest as (_ & _ & _ & _ & Hseg & _).
  destruct (level_configs_lookup _ _ Hcfg)
    as (_ & _ & HNb & _ & _ & HNa & _ & _ & _ & _).
  pose proof (level_configs_arc_min _ _ Hcfg) as Hraised.
  exists cfg. split; [exact Hcfg |].
  unfold seg, r_over_d. rewrite Hseg. clear Hseg seg r_over_d.
  cbn [meshgen_calculator.N_arc meshgen_calculator.N_arc_raw].
  set (raw := ceil (meshgen_calculator.theta_deg geom * (PI / 180)
                    * meshgen_calculator.R_elbow geom
                    / (meshgen_calculator.D geom
                       / IZR (2 * meshgen_config.N_bulk cfg)))) in *.
  set (raised := ceil (1.5 * IZR (meshgen_config.N_arc_min cfg))) in *.
  split.
  - destruct (0 <? raw)%Z eqn:E; [lia |].
    apply Z.ltb_ge in E. exact E.
  - intros Hpos. apply Z.ltb_lt in Hpos as Hb. rewrite Hb.
    split; [| split].
    + destruct (Rlt_dec _ 1.2); [destruct (Rge_dec _ 45) |]; lia.
    + intros Hloose.
      destruct (Rlt_dec _ 1.2) as [Hlt | _]; [| reflexivity].
      destruct (Rge_dec _ 45) as [Hge | _]; [| reflexivity].
      destruct Hloose; lra.
    + intros Htight Hth.
      destruct (Rlt_dec _ 1.2) as [_ | N]; [| lra].
      destruct (Rge_dec _ 45) as [_ | N]; [| lra].
      lia.
Qed.


(** X24: a returned recommendation carries the two fixed reminders and
    one more note for each adjustment made: the inlet count was clamped,
    the outlet count was clamped, the arc minimum was raised.  So with
    [c] clamped counts there are [c + 2] or [c + 3] notes: [c + 3] for a
    tight elbow ([R/D <= 1.19] and [theta >= 45]) and [c + 2] for one
    that is not ([R/D >= 1.21], or [theta < 45]). *)
Theorem mesh_notes_count
    (geom : meshgen_calculator.GeometryInput)
    (rec : meshgen_calculator.MeshRecommendations) :
  meshgen_calculator.compute_mesh_recommendations
    strip_lower fmt_d fmt_2f fmt_1f geom = Ok rec ->
  let seg := meshgen_calculator.segments_1d rec in
  let r_over_d := meshgen_calculator.R_elbow geom / meshgen_calculator.D geom in
  let c :=
    ((if (meshgen_calculator.N_in seg <? meshgen_calculator.N_in_raw seg)%Z
      then 1 else 0)
     + (if (meshgen_calculator.N_out seg <? meshgen_calculator.N_out_raw seg)%Z
        then 1 else 0))%nat in
  (c + 2 <= length (meshgen_calculator.notes rec) <= c + 3)%nat /\
  (r_over_d <= 1.19 -> 45 <= meshgen_calculator.theta_deg geom ->
   length (meshgen_calculator.notes rec) = (c + 3)%nat) /\
  (1.21 <= r_over_d \/ meshgen_calculator.theta_deg geom < 45 ->
   length (meshgen_calculator.notes rec) = (c + 2)%nat).
Proof.
  intros Hrec seg r_over_d c.
  destruct (compute_mesh_inv strip_lower fmt_d fmt_2f fmt_1f geom rec Hrec)
    as (_ & cfg & Hcfg & Hrest).
  cbv zeta in Hrest.
  destruct Hrest as (_ & _ & _ & _ & Hseg & _ & _ & Hnotes).
  destruct (level_configs_lookup _ _ Hcfg)
    as (_ & _ & _ & _ & _ & _ & HNi & HNo & _ & _).
  unfold c, seg, r_over_d. rewrite Hseg, Hnotes. clear Hseg Hnotes seg c r_over_d.
  cbn [meshgen_calculator.N_in meshgen_calculator.N_out
       meshgen_calculator.N_in_raw meshgen_calculator.N_out_raw].
  assert (Hclamp : forall n Nmax, (0 < Nmax)%Z ->
            ((if (0 <? n)%Z then Z.min n Nmax else 0%Z) <? n)%Z
            = (Nmax <? n)%Z).
  { intros n Nmax HN.
    destruct (0 <? n)%Z eqn:E1; destruct (Nmax <? n)%Z eqn:E2;
      try apply Z.ltb_lt; try apply Z.ltb_ge;
      try apply Z.ltb_lt in E1; try apply Z.ltb_ge in E1;
      try apply Z.ltb_lt in E2; try apply Z.ltb_ge in E2; lia. }
  rewrite !Hclamp by assumption.
  split; [| split].
  - destruct (Rlt_dec _ 1.2); [destruct (Rge_dec _ 45) |]; lia.
  - intros Htight Hth.
    destruct (Rlt_dec _ 1.2) as [_ | N]; [| lra].
    destruct (Rge_dec _ 45) as [_ | N]; [| lra].
    lia.
  - intros Hloose.
    destruct (Rlt_dec _ 1.2) as [Hlt | _]; [| lia].
    destruct (Rge_dec _ 45) as [Hge | _]; [| lia].
    destruct Hloose; lra.
Qed.

End MeshBounds.

(** A sample run: a 45 degree elbow of radius one diameter at level
    medium, with the identity for the normalisation of the level and
    empty number formats. *)
Lemma mesh_sample_returns :
  returns (meshgen_calculator.compute_mesh_recommendations
             (fun s => s) (fun _ => "") (fun _ => "") (fun _ => "")
             (meshgen_calculator.mkGeometryInput 0.35 7 0 0.35 45 "medium")).
Proof.
  eapply compute_mesh_returns.
  - unfold valid_geometry; cbn; lra.
  - reflexivity.
Qed.


Lemma mesh_straight_segment_counts_witness :
  exists rec,
    meshgen_calculator.compute_mesh_recommendations
      (fun s => s) (fun _ => "") (fun _ => "") (fun _ => "")
      (meshgen_calculator.mkGeometryInput 0.35 7 0 0.35 45 "medium") = Ok rec /\
    (0 <= meshgen_calculator.N_in (meshgen_calculator.segments_1d rec)
       <= 250)%Z /\
    meshgen_calculator.N_out (meshgen_calculator.segments_1d rec) = 0%Z.
Proof.
  destruct mesh_sample_returns as [rec Hrec].
  exists rec. split; [exact Hrec |].
  destruct (mesh_straight_segment_counts _ _ _ _ _ _ Hrec)
    as (cfg & Hcfg & _ & _ & H1 & _ & _ & H2).
  cbn in Hcfg. injection Hcfg as <-.
  split; [exact H1 |]. apply H2. reflexivity.
Defined.

Lemma mesh_arc_segment_count_witness :
  exists rec,
    meshgen_calculator.compute_mesh_recommendations
      (fun s => s) (fun _ => "") (fun _ => "") (fun _ => "")
      (meshgen_calculator.mkGeometryInput 0.35 7 0 0.35 45 "medium") = Ok rec /\
    (meshgen_calculator.N_arc_raw (meshgen_calculator.segments_1d rec)
       <= meshgen_calculator.N_arc (meshgen_calculator.segments_1d rec))%Z.
Proof.
  destruct mesh_sample_returns as [rec Hrec].
  exists rec. split; [exact Hrec |].
  destruct (mesh_arc_segment_count _ _ _ _ _ _ Hrec)
    as (cfg & _ & H & _).
  exact H.
Defined.


Lemma mesh_notes_count_witness :
  exists rec,
    meshgen_calculator.compute_mesh_recommendations
      (fun s => s) (fun _ => "") (fun _ => "") (fun _ => "")
      (meshgen_calculator.mkGeometryInput 0.35 7 0 0.35 45 "medium") = Ok rec /\
    (2 <= length (meshgen_calculator.notes rec) <= 5)%nat.
Proof.
  destruct mesh_sample_returns as [rec Hrec].
  exists rec. split; [exact Hrec |].
  destruct (mesh_notes_count _ _ _ _ _ _ Hrec) as (H & _).
  cbv zeta in H.
  destruct (_ <? _)%Z in H; destruct (_ <? _)%Z in H; cbn in H; lia.
Defined.

(** * The theoretical model of the post-processing script *)

Section PostModel.

Variable str_lower : string -> string.

(** On valid inputs the script's Haaland branch, given the relative
    roughness, is the calculator's Haaland correlation. *)
Lemma post_haaland_branch_agrees (Re D eps : R) :
  0 < Re -> 0 < D -> 0 <= eps ->
  post_pipe20m.haaland_branch Re (eps / D) = friction_factor_haaland Re D eps.
Proof.
  intros HRe HD Heps.
  destruct (haaland_term_ok Re D eps HRe HD Heps) as (p & Hp & Hp0 & _ & Ht).
  assert (Hpos : 0 < p + 6.9 / Re).
  { assert (0 < 6.9 / Re) by (apply Rdiv_lt_0_compat; lra). lra. }
  unfold post_pipe20m.haaland_branch, friction_factor_haaland.
  rewrite Hp. cbn [bind]. rewrite float_div_ok by lra. cbn [bind].
  destruct (Rle_dec Re 0); [lra |].
  destruct (Rle_dec D 0); [lra |].
  destruct (Rlt_dec eps 0); [lra |].
  rewrite Ht. cbn [bind].
  destruct (Rle_dec (p + 6.9 / Re) 0); [lra |].
  reflexivity.
Qed.


(** X26: the script's three explicit models are the calculator's three
    correlations: for [Re > 0], "laminar" and "blasius" give the values of
    [friction_factor_laminar] and [friction_factor_blasius], and for a
    valid diameter and roughness "haaland" at relative roughness
    [eps/D] has the outcome of [friction_factor_haaland]. *)
Theorem post_models_agree_with_calculator (Re D eps : R) (model : string) :
  0 < Re ->
  (str_lower model = "laminar" ->
   post_pipe20m.friction_factor str_lower Re (eps / D) model
     = friction_factor_laminar Re) /\
  (str_lower model = "blasius" ->
   post_pipe20m.friction_factor str_lower Re (eps / D) model
     = friction_factor_blasius Re) /\
  (str_lower model = "haaland" -> 0 < D -> 0 <= eps ->
   post_pipe20m.friction_factor str_lower Re (eps / D) model
     = friction_factor_haaland Re D eps).
Proof.
  intros HRe. unfold post_pipe20m.friction_factor.
  destruct (Rle_dec Re 0); [lra |].
  split; [| split].
  - intros ->. cbn [String.eqb Ascii.eqb Bool.eqb].
    unfold post_pipe20m.explicit_model. cbn [String.eqb Ascii.eqb Bool.eqb].
    unfold friction_factor_laminar. destruct (Rle_dec Re 0); [lra |].
    reflexivity.
  - intros ->. cbn [String.eqb Ascii.eqb Bool.eqb].
    unfold post_pipe20m.explicit_model. cbn [String.eqb Ascii.eqb Bool.eqb].
    unfold friction_factor_blasius. destruct (Rle_dec Re 0); [lra |].
    reflexivity.
  - intros -> HD Heps. cbn [String.eqb Ascii.eqb Bool.eqb].
    unfold post_pipe20m.explicit_model. cbn [String.eqb Ascii.eqb Bool.eqb].
    apply post_haaland_branch_agrees; assumption.
Qed.

(** X27: the script and the calculator disagree between Reynolds numbers
    2000 and 2300: there model "auto" still returns the laminar value
    [64/Re], while the calculator with method blasius already
    interpolates.  From [Re = 2001] on the calculator's value exceeds
    the script's by more than [0.0075 * (Re - 2000) / 2000], that is by
    more than 3.75e-6. *)
Theorem post_auto_differs_from_calculator (Re D eps eps_rel : R) (model : string) :
  2001 <= Re < 2300 -> str_lower model = "auto" ->
  post_pipe20m.friction_factor str_lower Re eps_rel model = Ok (64 / Re) /\
  exists f, friction_factor Re D eps "blasius" = Ok f /\
            64 / Re + 0.0075 * ((Re - 2000) / 2000) < f /\
            64 / Re + 3.75e-6 < f.
Proof.
  intros [H1 H2] Hm. split.
  - unfold post_pipe20m.friction_factor. rewrite Hm.
    cbn [String.eqb Ascii.eqb Bool.eqb].
    destruct (Rle_dec Re 0); [lra |].
    destruct (Rlt_dec Re 2300); [| lra].
    apply float_div_ok. lra.
  - eexists. split.
    + apply friction_factor_transitional; [lra |].
      cbn [String.eqb Ascii.eqb Bool.eqb].
      apply friction_factor_blasius_ok. lra.
    + pose proof blasius_4000_bounds as [Hb _].
      assert (Hlam : 64 / Re < 64 / 2000).
      { unfold Rdiv. apply Rmult_lt_compat_l; [lra |].
        apply Rinv_lt_contravar; nra. }
      set (b := 0.3164 * Rpower 4000 (-0.25)) in *.
      set (a := 64 / Re) in *.
      assert (Hw : 1 / 2000 <= (Re - 2000) / 2000) by lra.
      set (w := (Re - 2000) / 2000) in *.
      assert (Hm1 : 0 < w * (b - a - 0.0075))
        by (apply Rmult_lt_0_compat; lra).
      split; nra.
Qed.

End PostModel.



Lemma post_models_agree_with_calculator_witness :
  post_pipe20m.friction_factor (fun s => s) 25000 (0.00001 / 0.05) "haaland"
    = friction_factor_haaland 25000 0.05 0.00001.
Proof.
  destruct (post_models_agree_with_calculator
              (fun s => s) 25000 0.05 0.00001 "haaland") as (_ & _ & H);
    [lra |].
  apply H; [reflexivity | lra | lra].
Defined.

Lemma post_auto_differs_from_calculator_witness :
  post_pipe20m.friction_factor (fun s => s) 2100 0 "auto" = Ok (64 / 2100) /\
  exists f, friction_factor 2100 0.05 0 "blasius" = Ok f /\
            64 / 2100 + 0.0075 * ((2100 - 2000) / 2000) < f /\
            64 / 2100 + 3.75e-6 < f.
Proof.
  apply (post_auto_differs_from_calculator (fun s => s) 2100 0.05 0 0 "auto");
    [lra | reflexivity].
Defined.
